(** * Provider factory and provider adapters of the content-generation core

    A shallow embedding of
      - core/contentGenerator.ts (src/unnamed/part_000): the auth modes, the
        provider tags, [createContentGeneratorConfig], [createContentGenerator];
      - core/openaiProvider.ts (src/unnamed/part_001) and a second OpenAI
        adapter (src/unnamed/part_002);
      - core/claudeProvider.ts, core/grokProvider.ts, core/googleGenaiProvider.ts.

    JavaScript values are modelled by what the code can observe of them:
    [undefined] is [None], a string is falsy exactly when it is empty, an
    [Error] is its message, a promise is the outcome it settles to.  Reads of
    [process.env] and constructions of SDK clients are recorded in a trace. *)

From Corelib Require Import PrimFloat.
From Stdlib Require Import ZArith String Ascii.
From stdpp Require Import base option list strings gmap.

(** ** JavaScript values *)

Module Js.

(** Truthiness of a [string | undefined]: [undefined] and [''] are falsy. *)
Definition truthy (v : option string) : bool :=
  match v with
  | Some (String _ _) => true
  | _ => false
  end.

(** [v || undefined] *)
Definition or_undefined (v : option string) : option string :=
  if truthy v then v else None.

(** [v || ''] *)
Definition or_empty (v : option string) : string :=
  match v with
  | Some s => s
  | None => ""
  end.

(** [hay.includes(needle)] *)
Fixpoint includes (hay needle : string) : bool :=
  String.prefix needle hay ||
  match hay with
  | EmptyString => false
  | String _ rest => includes rest needle
  end.

(** [parts.join('')] *)
Definition join (sep : string) (parts : list string) : string :=
  String.concat sep parts.

(** [String(o)] of a plain object *)
Definition object_Object : string := "[object Object]".

(** A property of an object: missing, there with the value [undefined], or
    there with a value.  ['p' in o] tells the first from the other two,
    [o.p] reads the first two alike. *)
Inductive field (A : Type) : Type :=
| Absent
| Undefined
| Present (a : A).
Arguments Absent {A}.
Arguments Undefined {A}.
Arguments Present {A} a.

(** ['p' in o] *)
Definition has {A} (f : field A) : bool :=
  match f with
  | Absent => false
  | _ => true
  end.

(** [o.p] *)
Definition get {A} (f : field A) : option A :=
  match f with
  | Present a => Some a
  | _ => None
  end.

End Js.

(** ** Outcomes: a call returns a value or throws an [Error] with a message;
       an [async] function settles to one or the other. *)

Inductive outcome (A : Type) : Type :=
| Returned (a : A)
| Thrown (message : string).
Arguments Returned {A} a.
Arguments Thrown {A} message.

#[global] Instance outcome_ret : MRet outcome := fun A a => Returned a.
#[global] Instance outcome_bind : MBind outcome := fun A B k m =>
  match m with
  | Returned a => k a
  | Thrown msg => Thrown msg
  end.

Definition returned {A} (o : outcome A) : bool :=
  match o with
  | Returned _ => true
  | Thrown _ => false
  end.

(** ** The canonical message model (@google/genai), as far as the adapters
       read and build it *)

(** A part is a bare string or an object whose [text] may be missing (a
    non-text part). *)
Inductive Part : Type :=
| PString (s : string)
| PObject (text : option string).

(** An object of a content list.  A [Content] has [role?] and [parts?]; a
    part object met in a content list has neither. *)
Record Content : Type := mkContent {
  role : Js.field string;
  parts : option (list Part);
}.

Inductive ContentItem : Type :=
| IString (s : string)
| IObject (c : Content).

Inductive ContentListUnion : Type :=
| CString (s : string)
| COne (c : Content)
| CList (l : list ContentItem).

Record GenerateContentConfig : Type := mkGenerateContentConfig {
  temperature : option float;
  topP : option float;
  maxOutputTokens : option Z;
}.

Record GenerateContentParameters : Type := mkGenerateContentParameters {
  model : string;
  contents : option ContentListUnion;
  config : option GenerateContentConfig;
}.

Record UsageMetadata : Type := mkUsageMetadata {
  totalTokens : option Z;
}.

Record Candidate : Type := mkCandidate {
  content : Content;
}.

Record GenerateContentResponse : Type := mkGenerateContentResponse {
  candidates : list Candidate;
  usageMetadata : option UsageMetadata;
}.

Record CountTokensParameters : Type := mkCountTokensParameters {
  ct_model : string;
  ct_contents : option ContentListUnion;
}.

Record CountTokensResponse : Type := mkCountTokensResponse {
  ct_totalTokens : option Z;
}.

Record EmbedContentParameters : Type := mkEmbedContentParameters {
  em_model : string;
  em_contents : option ContentListUnion;
}.

Record ContentEmbedding : Type := mkContentEmbedding {
  values : list float;
}.

Record EmbedContentResponse : Type := mkEmbedContentResponse {
  embeddings : list ContentEmbedding;
}.

(** [{ candidates: [{ content: { role: 'model', parts: [{ text }] } }] }] *)
Definition model_candidate (text : string) : Candidate :=
  {| content := {| role := Js.Present "model";
                   parts := Some [PObject (Some text)] |} |}.

(** The text of a candidate: its parts' texts, in order. *)
Definition part_text (p : Part) : string :=
  match p with
  | PString s => s
  | PObject t => Js.or_empty t
  end.

Definition candidate_text (c : Candidate) : string :=
  Js.join "" (part_text <$> default [] (parts (content c))).

(** ** contentGenerator.ts: the facade and the configuration types *)

(** [interface ContentGenerator]: the four operations.  An async generator
    over a finite backend stream is the list of the values it yields. *)
Record ContentGenerator : Type := mkContentGenerator {
  generateContent : GenerateContentParameters -> outcome GenerateContentResponse;
  generateContentStream :
    GenerateContentParameters -> outcome (list GenerateContentResponse);
  countTokens : CountTokensParameters -> outcome CountTokensResponse;
  embedContent : EmbedContentParameters -> outcome EmbedContentResponse;
}.

Inductive AuthType : Type :=
| LOGIN_WITH_GOOGLE
| USE_GEMINI
| USE_VERTEX_AI
| USE_OPENAI
| USE_CLAUDE
| USE_GROK
| USE_DOUBAO
| USE_QWEN
| USE_KIMI
| USE_DEEPSEEK
| CLOUD_SHELL.

#[global] Instance AuthType_eq_dec : EqDecision AuthType.
Proof. solve_decision. Defined.

(** [enum Provider]: at run time a provider tag is a string. *)
Module Provider.
Definition GEMINI : string := "gemini".
Definition OPENAI : string := "openai".
Definition CLAUDE : string := "claude".
Definition GROK : string := "grok".
Definition DOUBAO : string := "doubao".
Definition QWEN : string := "qwen".
Definition KIMI : string := "kimi".
Definition DEEPSEEK : string := "deepseek".

Definition all : list string :=
  [GEMINI; OPENAI; CLAUDE; GROK; DOUBAO; QWEN; KIMI; DEEPSEEK].
End Provider.

Record ContentGeneratorConfig : Type := mkContentGeneratorConfig {
  cfg_model : string;
  cfg_provider : option string;
  cfg_apiKey : option string;
  cfg_vertexai : option bool;
  cfg_authType : option AuthType;
  cfg_proxy : option string;
}.

(** [Config] (config/config.ts), by the two getters the core calls. *)
Record Config : Type := mkConfig {
  getModel : string;
  getProxy : option string;
}.

Record HttpOptions : Type := mkHttpOptions {
  user_agent : string;
}.

(** ** The process and the effects of the core *)

Record Process : Type := mkProcess {
  env : gmap string string;
  version : string;
  platform : string;
  arch : string;
}.

Inductive SDK : Type := OpenAI_SDK | Anthropic_SDK | GoogleGenAI_SDK.

(** What a run of the core's own code leaves behind:
    - [EnvRead name]: a read of [process.env.name];
    - [ClientNew sdk apiKey]: [new OpenAI({ apiKey })], [new Anthropic({ apiKey })]
      or [new GoogleGenAI({ apiKey, ... })];
    - [EffectiveModelCall apiKey model proxy]: the call
      [getEffectiveModel(apiKey, model, proxy)] of core/modelCheck.ts, which
      the code does not await and whose result it drops. *)
Inductive Event : Type :=
| EnvRead (name : string)
| ClientNew (sdk : SDK) (apiKey : option string)
| EffectiveModelCall (apiKey : option string) (model : string) (proxy : option string).

Definition is_ClientNew (e : Event) : bool :=
  match e with
  | ClientNew _ _ => true
  | _ => false
  end.

(** A computation reads the process, leaves a trace and returns or throws. *)
Definition M (A : Type) : Type := Process -> list Event * outcome A.

#[global] Instance M_ret : MRet M := fun A a _ => ([], Returned a).
#[global] Instance M_bind : MBind M := fun A B k m proc =>
  match m proc with
  | (t, Returned a) => let '(t', o) := k a proc in (t ++ t', o)
  | (t, Thrown msg) => (t, Thrown msg)
  end.

Definition throw {A} (msg : string) : M A := fun _ => ([], Thrown msg).

Definition emit (e : Event) : M unit := fun _ => ([e], Returned tt).

(** [process.env.NAME] *)
Definition getenv (name : string) : M (option string) :=
  fun proc => ([EnvRead name], Returned (env proc !! name)).

Definition ask : M Process := fun proc => ([], Returned proc).

Definition trace {A} (r : list Event * outcome A) : list Event := r.1.
Definition result {A} (r : list Event * outcome A) : outcome A := r.2.

(** ** The OpenAI SDK, as far as the adapters use it *)

Module OpenAISdk.

Record ChatCompletionMessageParam : Type := mkMessage {
  msg_role : option string;
  msg_content : string;
}.

(** The argument of [client.chat.completions.create]; [p_stream] is [false]
    where the object literal has no [stream] key. *)
Record ChatCompletionCreateParams : Type := mkParams {
  p_model : string;
  p_messages : list ChatCompletionMessageParam;
  p_temperature : option float;
  p_top_p : option float;
  p_stream : bool;
}.

Record ChatCompletionMessage : Type := mkChatCompletionMessage {
  message_content : option string;
}.

Record Choice : Type := mkChoice {
  message : option ChatCompletionMessage;
}.

Record CompletionUsage : Type := mkCompletionUsage {
  total_tokens : Z;
}.

Record ChatCompletion : Type := mkChatCompletion {
  choices : list Choice;
  usage : option CompletionUsage;
}.

Record Delta : Type := mkDelta {
  delta_content : option string;
}.

Record ChunkChoice : Type := mkChunkChoice {
  delta : option Delta;
}.

Record ChatCompletionChunk : Type := mkChunk {
  chunk_choices : list ChunkChoice;
}.

Record EmbeddingCreateParams : Type := mkEmbeddingCreateParams {
  e_model : string;
  e_input : option ContentListUnion;
}.

Record Embedding : Type := mkEmbedding {
  embedding : list float;
}.

Record CreateEmbeddingResponse : Type := mkCreateEmbeddingResponse {
  data : list Embedding;
}.

(** The completion has no content: no first choice, or no message in it, or
    a message without content. *)
Definition no_content (completion : ChatCompletion) : Prop :=
  (head (choices completion) ≫= message) ≫= message_content = None.

(** A client: what [client.chat.completions.create] settles to without and
    with [stream: true] (a finished backend stream is the list of its
    chunks), and [client.embeddings.create]. *)
Record OpenAI : Type := mkOpenAI {
  chat_completions_create : ChatCompletionCreateParams -> outcome ChatCompletion;
  chat_completions_create_stream :
    ChatCompletionCreateParams -> outcome (list ChatCompletionChunk);
  embeddings_create : EmbeddingCreateParams -> outcome CreateEmbeddingResponse;
}.

(** A chunk of a backend stream whose first choice carries the delta [text]. *)
Definition delta_chunk (text : string) : ChatCompletionChunk :=
  {| chunk_choices := [{| delta := Some {| delta_content := Some text |} |}] |}.

End OpenAISdk.

(** [request.contents || []] *)
Definition contents_or_empty (contents : option ContentListUnion) : ContentListUnion :=
  match contents with
  | None => CList []
  | Some (CString "") => CList []
  | Some c => c
  end.

(** ** openaiProvider.ts (src/unnamed/part_001) *)

Module OpenaiProvider.
Import OpenAISdk.

(** [(p) => (typeof p === 'string' ? p : p.text || '')] *)
Definition part_to_text (p : Part) : string :=
  match p with
  | PString s => s
  | PObject text => Js.or_empty text
  end.

(** The callback of [list.map] in [toOpenAIMessages]. *)
Definition item_to_message (item : ContentItem) : ChatCompletionMessageParam :=
  match item with
  | IString s => {| msg_role := Some "user"; msg_content := s |}
  | IObject c =>
      if negb (Js.has (role c)) then
        {| msg_role := Some "user"; msg_content := Js.object_Object |}
      else
        let parts := Js.join "" (part_to_text <$> default [] (parts c)) in
        {| msg_role := Js.get (role c); msg_content := parts |}
  end.

Definition toOpenAIMessages (contents : option ContentListUnion)
  : list ChatCompletionMessageParam :=
  match contents with
  | None => []
  | Some (CString "") => []
  | Some (CString s) => [{| msg_role := Some "user"; msg_content := s |}]
  | Some (COne c) => item_to_message <$> [IObject c]
  | Some (CList list) => item_to_message <$> list
  end.

(** [completion.choices[0]?.message?.content || ''] *)
Definition completion_text (completion : ChatCompletion) : string :=
  Js.or_empty ((head (choices completion) ≫= message) ≫= message_content).

(** [chunk.choices[0]?.delta?.content || ''] *)
Definition chunk_text (chunk : ChatCompletionChunk) : string :=
  Js.or_empty ((head (chunk_choices chunk) ≫= delta) ≫= delta_content).

(** [async function* iterator()]: one value yielded per chunk of the stream. *)
Fixpoint iterator (stream : list ChatCompletionChunk) : list GenerateContentResponse :=
  match stream with
  | [] => []
  | chunk :: rest =>
      let text := chunk_text chunk in
      {| candidates := [model_candidate text]; usageMetadata := None |}
        :: iterator rest
  end.

Section Generator.
Variable client : OpenAI.

Definition generateContent (request : GenerateContentParameters)
  : outcome GenerateContentResponse :=
  let messages := toOpenAIMessages (Some (contents_or_empty (contents request))) in
  completion ← chat_completions_create client
    {| p_model := model request;
       p_messages := messages;
       p_temperature := config request ≫= temperature;
       p_top_p := config request ≫= topP;
       p_stream := false |};
  let text := completion_text completion in
  mret {| candidates := [model_candidate text];
          usageMetadata := Some {| totalTokens := total_tokens <$> usage completion |} |}.

Definition generateContentStream (request : GenerateContentParameters)
  : outcome (list GenerateContentResponse) :=
  let messages := toOpenAIMessages (Some (contents_or_empty (contents request))) in
  stream ← chat_completions_create_stream client
    {| p_model := model request;
       p_messages := messages;
       p_temperature := config request ≫= temperature;
       p_top_p := config request ≫= topP;
       p_stream := true |};
  mret (iterator stream).

Definition countTokens (_req : CountTokensParameters) : outcome CountTokensResponse :=
  Thrown "countTokens is not implemented for OpenAI provider".

Definition embedContent (request : EmbedContentParameters)
  : outcome EmbedContentResponse :=
  res ← embeddings_create client
    {| e_model := em_model request; e_input := em_contents request |};
  mret {| embeddings := (fun e => {| values := embedding e |}) <$> data res |}.

Definition generator : ContentGenerator :=
  mkContentGenerator generateContent generateContentStream countTokens embedContent.

End Generator.

Section Provider.
(** [new OpenAI({ apiKey })] *)
Variable newOpenAI : option string -> OpenAI.

Definition createProvider (config : ContentGeneratorConfig) (_gcConfig : Config)
    (_sessionId : option string) : M ContentGenerator :=
  apiKey ← (if Js.truthy (cfg_apiKey config) then mret (cfg_apiKey config)
            else getenv "OPENAI_API_KEY");
  if negb (Js.truthy apiKey) then
    throw "OPENAI_API_KEY is required for OpenAI provider"
  else
    _ ← emit (ClientNew OpenAI_SDK apiKey);
    let client := newOpenAI apiKey in
    mret (generator client).

End Provider.
End OpenaiProvider.

(** ** The second OpenAI adapter (src/unnamed/part_002) *)

Module OpenaiProvider2.
Import OpenAISdk.

(** [(p: { text?: string }) => p.text || '']; a bare string has no [text]. *)
Definition part_to_text (p : Part) : string :=
  match p with
  | PString _ => ""
  | PObject text => Js.or_empty text
  end.

(** The callback of [contents.map]: [c.role] and [c.parts] of a string are
    [undefined]. *)
Definition item_to_message (c : ContentItem) : ChatCompletionMessageParam :=
  match c with
  | IString _ => {| msg_role := None; msg_content := "" |}
  | IObject c =>
      {| msg_role := Js.get (role c);
         msg_content :=
           match parts c with
           | Some ps => Js.join "" (part_to_text <$> ps)
           | None => ""
           end |}
  end.

(** [contents.map] exists on arrays only. *)
Definition toOpenAIMessages (contents : ContentListUnion)
  : outcome (list ChatCompletionMessageParam) :=
  match contents with
  | CList l => Returned (item_to_message <$> l)
  | _ => Thrown "contents.map is not a function"
  end.

(** [completion.choices[0]?.message?.content || ''] *)
Definition completion_text (completion : ChatCompletion) : string :=
  Js.or_empty ((head (choices completion) ≫= message) ≫= message_content).

(** [chunk.choices[0]?.delta?.content || ''] *)
Definition chunk_text (chunk : ChatCompletionChunk) : string :=
  Js.or_empty ((head (chunk_choices chunk) ≫= delta) ≫= delta_content).

Fixpoint iterator (stream : list ChatCompletionChunk) : list GenerateContentResponse :=
  match stream with
  | [] => []
  | chunk :: rest =>
      let text := chunk_text chunk in
      {| candidates := [model_candidate text]; usageMetadata := None |}
        :: iterator rest
  end.

Section Generator.
Variable client : OpenAI.

Definition generateContent (request : GenerateContentParameters)
  : outcome GenerateContentResponse :=
  messages ← toOpenAIMessages (contents_or_empty (contents request));
  completion ← chat_completions_create client
    {| p_model := model request;
       p_messages := messages;
       p_temperature := config request ≫= temperature;
       p_top_p := config request ≫= topP;
       p_stream := false |};
  let text := completion_text completion in
  mret {| candidates := [model_candidate text];
          usageMetadata := Some {| totalTokens := total_tokens <$> usage completion |} |}.

Definition generateContentStream (request : GenerateContentParameters)
  : outcome (list GenerateContentResponse) :=
  messages ← toOpenAIMessages (contents_or_empty (contents request));
  stream ← chat_completions_create_stream client
    {| p_model := model request;
       p_messages := messages;
       p_temperature := config request ≫= temperature;
       p_top_p := config request ≫= topP;
       p_stream := true |};
  mret (iterator stream).

Definition countTokens (_req : CountTokensParameters) : outcome CountTokensResponse :=
  Thrown "countTokens is not implemented for OpenAI provider".

Definition embedContent (request : EmbedContentParameters)
  : outcome EmbedContentResponse :=
  res ← embeddings_create client
    {| e_model := em_model request; e_input := em_contents request |};
  mret {| embeddings := (fun e => {| values := embedding e |}) <$> data res |}.

Definition generator : ContentGenerator :=
  mkContentGenerator generateContent generateContentStream countTokens embedContent.

End Generator.

Section Provider.
Variable newOpenAI : option string -> OpenAI.

Definition createProvider (config : ContentGeneratorConfig) (_gcConfig : Config)
    (_sessionId : option string) : M ContentGenerator :=
  apiKey ← (if Js.truthy (cfg_apiKey config) then mret (cfg_apiKey config)
            else getenv "OPENAI_API_KEY");
  if negb (Js.truthy apiKey) then
    throw "OPENAI_API_KEY is required for OpenAI provider"
  else
    _ ← emit (ClientNew OpenAI_SDK apiKey);
    let client := newOpenAI apiKey in
    mret (generator client).

End Provider.
End OpenaiProvider2.

(** ** The Anthropic SDK, as far as the Claude adapter uses it *)

Module AnthropicSdk.

Record MessageParam : Type := mkMessageParam {
  msg_role : option string;
  msg_content : string;
}.

Record MessageCreateParams : Type := mkMessageCreateParams {
  p_model : string;
  p_messages : list MessageParam;
  p_max_tokens : Z;
  p_temperature : option float;
}.

Record ContentBlock : Type := mkContentBlock {
  text : option string;
}.

(** The token usage a message comes with: an input and an output count; the
    message has no field for a total. *)
Record Usage : Type := mkUsage {
  input_tokens : Z;
  output_tokens : Z;
}.

Record Message : Type := mkMessage {
  message_content : option (list ContentBlock);
  usage : option Usage;
}.

(** The message has no content: no block list, an empty one, or a first
    block without text. *)
Definition no_content (message : Message) : Prop :=
  (message_content message ≫= head) ≫= text = None.

(** A client: what [client.messages.create] settles to. *)
Record Anthropic : Type := mkAnthropic {
  messages_create : MessageCreateParams -> outcome Message;
}.

End AnthropicSdk.

(** ** claudeProvider.ts *)

Module ClaudeProvider.
Import AnthropicSdk.

(** [(p) => (typeof p === 'string' ? p : p.text || '')] *)
Definition part_to_text (p : Part) : string :=
  match p with
  | PString s => s
  | PObject text => Js.or_empty text
  end.

(** The callback of [list.map] in [toAnthropicMessages]. *)
Definition item_to_message (item : ContentItem) : MessageParam :=
  match item with
  | IString s => {| msg_role := Some "user"; msg_content := s |}
  | IObject c =>
      let parts := Js.join "" (part_to_text <$> default [] (parts c)) in
      {| msg_role := Js.get (role c); msg_content := parts |}
  end.

Definition toAnthropicMessages (contents : option ContentListUnion) : list MessageParam :=
  let list :=
    match contents with
    | Some (CList l) => l
    | Some (CString "") => []
    | Some (CString s) => [IString s]
    | Some (COne c) => [IObject c]
    | None => []
    end in
  item_to_message <$> list.

(** [completion.content?.[0]?.text || ''] *)
Definition completion_text (completion : Message) : string :=
  Js.or_empty ((message_content completion ≫= head) ≫= text).

Section Generator.
Variable client : Anthropic.

Definition generateContent (request : GenerateContentParameters)
  : outcome GenerateContentResponse :=
  let messages := toAnthropicMessages (contents request) in
  completion ← messages_create client
    {| p_model := model request;
       p_messages := messages;
       p_max_tokens := default 1024%Z (config request ≫= maxOutputTokens);
       p_temperature := config request ≫= temperature |};
  let text := completion_text completion in
  mret {| candidates := [model_candidate text]; usageMetadata := None |}.

Definition generateContentStream (_request : GenerateContentParameters)
  : outcome (list GenerateContentResponse) :=
  Thrown "Streaming not implemented for Claude provider".

Definition countTokens (_req : CountTokensParameters) : outcome CountTokensResponse :=
  Thrown "countTokens is not implemented for Claude provider".

Definition embedContent (_req : EmbedContentParameters) : outcome EmbedContentResponse :=
  Thrown "embedContent is not implemented for Claude provider".

Definition generator : ContentGenerator :=
  mkContentGenerator generateContent generateContentStream countTokens embedContent.

End Generator.

Section Provider.
(** [new Anthropic({ apiKey })] *)
Variable newAnthropic : option string -> Anthropic.

Definition createProvider (config : ContentGeneratorConfig) (_gcConfig : Config)
    (_sessionId : option string) : M ContentGenerator :=
  apiKey ← (if Js.truthy (cfg_apiKey config) then mret (cfg_apiKey config)
            else getenv "ANTHROPIC_API_KEY");
  if negb (Js.truthy apiKey) then
    throw "ANTHROPIC_API_KEY is required for Claude provider"
  else
    _ ← emit (ClientNew Anthropic_SDK apiKey);
    let client := newAnthropic apiKey in
    mret (generator client).

End Provider.
End ClaudeProvider.

(** ** grokProvider.ts *)

Module GrokProvider.

Definition generateContent (_request : GenerateContentParameters)
  : outcome GenerateContentResponse :=
  Thrown "Provider not implemented".

Definition generateContentStream (_request : GenerateContentParameters)
  : outcome (list GenerateContentResponse) :=
  Thrown "Provider not implemented".

Definition countTokens (_req : CountTokensParameters) : outcome CountTokensResponse :=
  Thrown "Provider not implemented".

Definition embedContent (_req : EmbedContentParameters) : outcome EmbedContentResponse :=
  Thrown "Provider not implemented".

Definition generator : ContentGenerator :=
  mkContentGenerator generateContent generateContentStream countTokens embedContent.

Definition createProvider (_config : ContentGeneratorConfig) (_gcConfig : Config)
    (_sessionId : option string) : M ContentGenerator :=
  mret generator.

End GrokProvider.

(** [process.env.CLI_VERSION || process.version], then the [httpOptions]
    literal with its User-Agent header. *)
Definition make_httpOptions : M HttpOptions :=
  cli_version ← getenv "CLI_VERSION";
  proc ← ask;
  let version := if Js.truthy cli_version then Js.or_empty cli_version else version proc in
  mret {| user_agent :=
            "GeminiCLI/" +:+ version +:+ " (" +:+ platform proc +:+ "; "
              +:+ arch proc +:+ ")" |}.

(** ** googleGenaiProvider.ts *)

Module GoogleGenaiProvider.

Record GoogleGenAIOptions : Type := mkGoogleGenAIOptions {
  apiKey : option string;
  vertexai : option bool;
  httpOptions : HttpOptions;
}.

(** The SDK object, by the member the adapter returns. *)
Record GoogleGenAI : Type := mkGoogleGenAI {
  models : ContentGenerator;
}.

Section Provider.
(** [new GoogleGenAI({ apiKey, vertexai, httpOptions })] *)
Variable newGoogleGenAI : GoogleGenAIOptions -> GoogleGenAI.

Definition createProvider (config : ContentGeneratorConfig) (_gcConfig : Config)
    (_sessionId : option string) : M ContentGenerator :=
  httpOptions ← make_httpOptions;
  let apiKey :=
    match cfg_apiKey config with
    | Some "" => None
    | k => k
    end in
  _ ← emit (ClientNew GoogleGenAI_SDK apiKey);
  let googleGenAI :=
    newGoogleGenAI {| apiKey := apiKey;
                      vertexai := cfg_vertexai config;
                      httpOptions := httpOptions |} in
  mret (models googleGenAI).

End Provider.
End GoogleGenaiProvider.

(** ** contentGenerator.ts (src/unnamed/part_000) *)

(** [process.env.NAME || undefined] *)
Definition getenv_or_undefined (name : string) : M (option string) :=
  v ← getenv name;
  mret (Js.or_undefined v).

Definition is_managed (authType : option AuthType) : bool :=
  bool_decide (authType = Some LOGIN_WITH_GOOGLE)
  || bool_decide (authType = Some CLOUD_SHELL).

Definition set_apiKey (c : ContentGeneratorConfig) (k : option string)
  : ContentGeneratorConfig :=
  {| cfg_model := cfg_model c; cfg_provider := cfg_provider c; cfg_apiKey := k;
     cfg_vertexai := cfg_vertexai c; cfg_authType := cfg_authType c;
     cfg_proxy := cfg_proxy c |}.

Definition set_vertexai (c : ContentGeneratorConfig) (v : bool)
  : ContentGeneratorConfig :=
  {| cfg_model := cfg_model c; cfg_provider := cfg_provider c;
     cfg_apiKey := cfg_apiKey c; cfg_vertexai := Some v;
     cfg_authType := cfg_authType c; cfg_proxy := cfg_proxy c |}.

Section ContentGenerator.

(** [DEFAULT_GEMINI_MODEL] of config/models.ts *)
Variable DEFAULT_GEMINI_MODEL : string.

Definition createContentGeneratorConfig (config : Config) (authType : option AuthType)
  : M ContentGeneratorConfig :=
  geminiApiKey ← getenv_or_undefined "GEMINI_API_KEY";
  googleApiKey ← getenv_or_undefined "GOOGLE_API_KEY";
  googleCloudProject ← getenv_or_undefined "GOOGLE_CLOUD_PROJECT";
  googleCloudLocation ← getenv_or_undefined "GOOGLE_CLOUD_LOCATION";
  openaiApiKey ← getenv_or_undefined "OPENAI_API_KEY";
  anthropicApiKey ← getenv_or_undefined "ANTHROPIC_API_KEY";
  grokApiKey ← getenv_or_undefined "GROK_API_KEY";
  doubaoApiKey ← getenv_or_undefined "DOUBAO_API_KEY";
  qwenApiKey ← getenv_or_undefined "QWEN_API_KEY";
  kimiApiKey ← getenv_or_undefined "KIMI_API_KEY";
  deepseekApiKey ← getenv_or_undefined "DEEPSEEK_API_KEY";
  let effectiveModel :=
    match getModel config with
    | "" => DEFAULT_GEMINI_MODEL
    | m => m
    end in
  let contentGeneratorConfig :=
    {| cfg_model := effectiveModel; cfg_provider := None; cfg_apiKey := None;
       cfg_vertexai := None; cfg_authType := authType;
       cfg_proxy := getProxy config |} in
  if is_managed authType then
    mret contentGeneratorConfig
  else if bool_decide (authType = Some USE_GEMINI) && Js.truthy geminiApiKey then
    let contentGeneratorConfig :=
      set_vertexai (set_apiKey contentGeneratorConfig geminiApiKey) false in
    _ ← emit (EffectiveModelCall (cfg_apiKey contentGeneratorConfig)
                (cfg_model contentGeneratorConfig) (cfg_proxy contentGeneratorConfig));
    mret contentGeneratorConfig
  else if bool_decide (authType = Some USE_OPENAI) && Js.truthy openaiApiKey then
    mret (set_apiKey contentGeneratorConfig openaiApiKey)
  else if bool_decide (authType = Some USE_CLAUDE) && Js.truthy anthropicApiKey then
    mret (set_apiKey contentGeneratorConfig anthropicApiKey)
  else if bool_decide (authType = Some USE_GROK) && Js.truthy grokApiKey then
    mret (set_apiKey contentGeneratorConfig grokApiKey)
  else if bool_decide (authType = Some USE_DOUBAO) && Js.truthy doubaoApiKey then
    mret (set_apiKey contentGeneratorConfig doubaoApiKey)
  else if bool_decide (authType = Some USE_QWEN) && Js.truthy qwenApiKey then
    mret (set_apiKey contentGeneratorConfig qwenApiKey)
  else if bool_decide (authType = Some USE_KIMI) && Js.truthy kimiApiKey then
    mret (set_apiKey contentGeneratorConfig kimiApiKey)
  else if bool_decide (authType = Some USE_DEEPSEEK) && Js.truthy deepseekApiKey then
    mret (set_apiKey contentGeneratorConfig deepseekApiKey)
  else if bool_decide (authType = Some USE_VERTEX_AI)
          && (Js.truthy googleApiKey
              || (Js.truthy googleCloudProject && Js.truthy googleCloudLocation)) then
    mret (set_vertexai (set_apiKey contentGeneratorConfig googleApiKey) true)
  else
    mret contentGeneratorConfig.

(** The SDK constructors, the Code Assist factory (code_assist/codeAssist.ts)
    and the four provider modules that the factory imports besides the ones
    above.  An SDK constructor is taken as a function of the argument the core
    passes to it: what the SDK reads from the process on its own (fallback
    keys, base URLs) and whether it throws are not modelled, and a trace
    records the reads and constructor calls of the core's own code only. *)
Variable newOpenAI : option string -> OpenAISdk.OpenAI.
Variable newAnthropic : option string -> AnthropicSdk.Anthropic.
Variable newGoogleGenAI :
  GoogleGenaiProvider.GoogleGenAIOptions -> GoogleGenaiProvider.GoogleGenAI.
Variable createCodeAssistContentGenerator :
  HttpOptions -> option AuthType -> Config -> option string -> M ContentGenerator.
Variables createDoubaoProvider createQwenProvider createKimiProvider
  createDeepseekProvider :
  ContentGeneratorConfig -> Config -> option string -> M ContentGenerator.

Definition createGoogleGenaiProvider := GoogleGenaiProvider.createProvider newGoogleGenAI.
Definition createOpenaiProvider := OpenaiProvider.createProvider newOpenAI.
Definition createClaudeProvider := ClaudeProvider.createProvider newAnthropic.
Definition createGrokProvider := GrokProvider.createProvider.

Definition createContentGenerator (config : ContentGeneratorConfig) (gcConfig : Config)
    (sessionId : option string) : M ContentGenerator :=
  httpOptions ← make_httpOptions;
  let provider := default Provider.GEMINI (cfg_provider config) in
  if String.eqb provider Provider.GEMINI then
    if is_managed (cfg_authType config) then
      createCodeAssistContentGenerator httpOptions (cfg_authType config) gcConfig sessionId
    else
      createGoogleGenaiProvider config gcConfig sessionId
  else if String.eqb provider Provider.OPENAI then
    createOpenaiProvider config gcConfig sessionId
  else if String.eqb provider Provider.CLAUDE then
    createClaudeProvider config gcConfig sessionId
  else if String.eqb provider Provider.GROK then
    createGrokProvider config gcConfig sessionId
  else if String.eqb provider Provider.DOUBAO then
    createDoubaoProvider config gcConfig sessionId
  else if String.eqb provider Provider.QWEN then
    createQwenProvider config gcConfig sessionId
  else if String.eqb provider Provider.KIMI then
    createKimiProvider config gcConfig sessionId
  else if String.eqb provider Provider.DEEPSEEK then
    createDeepseekProvider config gcConfig sessionId
  else
    throw ("Error creating contentGenerator: Unsupported provider: " +:+ provider).

End ContentGenerator.

(** ** The adapters as one family, and what the properties speak of *)

(** The chat-completion-style adapters of the core. *)
Inductive Adapter : Type := OpenAI | OpenAI2 | Claude | Grok.

(** The name an adapter's messages give its provider. *)
Definition provider_name (a : Adapter) : string :=
  match a with
  | OpenAI | OpenAI2 => "OpenAI"
  | Claude => "Claude"
  | Grok => "Grok"
  end.

(** The backend clients a session may hold. *)
Record Backend : Type := mkBackend {
  openai_client : OpenAISdk.OpenAI;
  anthropic_client : AnthropicSdk.Anthropic;
}.

Definition adapter_generator (b : Backend) (a : Adapter) : ContentGenerator :=
  match a with
  | OpenAI => OpenaiProvider.generator (openai_client b)
  | OpenAI2 => OpenaiProvider2.generator (openai_client b)
  | Claude => ClaudeProvider.generator (anthropic_client b)
  | Grok => GrokProvider.generator
  end.

(** The message an outcome was thrown with. *)
Definition thrown_message {A} (o : outcome A) : option string :=
  match o with
  | Returned _ => None
  | Thrown msg => Some msg
  end.

(** A response with exactly one candidate, of role [model], carrying [text]. *)
Definition one_model_candidate (resp : GenerateContentResponse) (text : string) : Prop :=
  candidates resp = [model_candidate text].

(** The environment variables whose values an auth mode's resolution uses. *)
Definition selected_keys (authType : option AuthType) : list string :=
  match authType with
  | Some USE_GEMINI => ["GEMINI_API_KEY"]
  | Some USE_VERTEX_AI =>
      ["GOOGLE_API_KEY"; "GOOGLE_CLOUD_PROJECT"; "GOOGLE_CLOUD_LOCATION"]
  | Some USE_OPENAI => ["OPENAI_API_KEY"]
  | Some USE_CLAUDE => ["ANTHROPIC_API_KEY"]
  | Some USE_GROK => ["GROK_API_KEY"]
  | Some USE_DOUBAO => ["DOUBAO_API_KEY"]
  | Some USE_QWEN => ["QWEN_API_KEY"]
  | Some USE_KIMI => ["KIMI_API_KEY"]
  | Some USE_DEEPSEEK => ["DEEPSEEK_API_KEY"]
  | Some LOGIN_WITH_GOOGLE | Some CLOUD_SHELL | None => []
  end.

(** The variable that holds the API key of a key-based auth mode. *)
Definition api_key_var (authType : AuthType) : option string :=
  match authType with
  | USE_GEMINI => Some "GEMINI_API_KEY"
  | USE_VERTEX_AI => Some "GOOGLE_API_KEY"
  | USE_OPENAI => Some "OPENAI_API_KEY"
  | USE_CLAUDE => Some "ANTHROPIC_API_KEY"
  | USE_GROK => Some "GROK_API_KEY"
  | USE_DOUBAO => Some "DOUBAO_API_KEY"
  | USE_QWEN => Some "QWEN_API_KEY"
  | USE_KIMI => Some "KIMI_API_KEY"
  | USE_DEEPSEEK => Some "DEEPSEEK_API_KEY"
  | LOGIN_WITH_GOOGLE | CLOUD_SHELL => None
  end.

(** Every variable [createContentGeneratorConfig] reads, in the order of its
    reads. *)
Definition config_reads : list Event :=
  EnvRead <$> ["GEMINI_API_KEY"; "GOOGLE_API_KEY"; "GOOGLE_CLOUD_PROJECT";
               "GOOGLE_CLOUD_LOCATION"; "OPENAI_API_KEY"; "ANTHROPIC_API_KEY";
               "GROK_API_KEY"; "DOUBAO_API_KEY"; "QWEN_API_KEY"; "KIMI_API_KEY";
               "DEEPSEEK_API_KEY"].

(** The configuration before any key is attached. *)
Definition base_config (DEFAULT_GEMINI_MODEL : string) (config : Config)
    (authType : option AuthType) : ContentGeneratorConfig :=
  {| cfg_model := match getModel config with "" => DEFAULT_GEMINI_MODEL | m => m end;
     cfg_provider := None; cfg_apiKey := None; cfg_vertexai := None;
     cfg_authType := authType; cfg_proxy := getProxy config |}.


(** What the claims about the four operations say. *)

(** The parameters an OpenAI adapter passes to [client.chat.completions.create]. *)
Definition chat_params (request : GenerateContentParameters)
    (messages : list OpenAISdk.ChatCompletionMessageParam) (stream : bool)
  : OpenAISdk.ChatCompletionCreateParams :=
  {| OpenAISdk.p_model := model request;
     OpenAISdk.p_messages := messages;
     OpenAISdk.p_temperature := config request ≫= temperature;
     OpenAISdk.p_top_p := config request ≫= topP;
     OpenAISdk.p_stream := stream |}.

(** The parameters the Claude adapter passes to [client.messages.create]. *)
Definition claude_params (request : GenerateContentParameters)
  : AnthropicSdk.MessageCreateParams :=
  {| AnthropicSdk.p_model := model request;
     AnthropicSdk.p_messages := ClaudeProvider.toAnthropicMessages (contents request);
     AnthropicSdk.p_max_tokens := default 1024%Z (config request ≫= maxOutputTokens);
     AnthropicSdk.p_temperature := config request ≫= temperature |}.

(** A reachable backend answers every single-shot call. *)
Definition reachable (b : Backend) : Prop :=
  (forall p, returned (OpenAISdk.chat_completions_create (openai_client b) p) = true)
  /\ (forall p, returned (AnthropicSdk.messages_create (anthropic_client b) p) = true).

(** [generateContent] returns a response with exactly one candidate, of role
    [model]. *)
Definition generates_one_model_candidate (b : Backend) (a : Adapter)
    (request : GenerateContentParameters) : Prop :=
  exists resp text,
    generateContent (adapter_generator b a) request = Returned resp
    /\ one_model_candidate resp text.

(** The total token count the backend reports for the single-shot call of an
    adapter on a request, if the adapter makes the call and the backend
    reports one: [usage.total_tokens] of an OpenAI completion.  An Anthropic
    message has no total-token field, and the Grok placeholder has no
    backend. *)
Definition reported_total (b : Backend) (a : Adapter)
    (request : GenerateContentParameters) : option Z :=
  match a with
  | OpenAI =>
      let messages :=
        OpenaiProvider.toOpenAIMessages (Some (contents_or_empty (contents request))) in
      match OpenAISdk.chat_completions_create (openai_client b)
              (chat_params request messages false) with
      | Returned completion => OpenAISdk.total_tokens <$> OpenAISdk.usage completion
      | Thrown _ => None
      end
  | OpenAI2 =>
      match OpenaiProvider2.toOpenAIMessages (contents_or_empty (contents request)) with
      | Returned messages =>
          match OpenAISdk.chat_completions_create (openai_client b)
                  (chat_params request messages false) with
          | Returned completion => OpenAISdk.total_tokens <$> OpenAISdk.usage completion
          | Thrown _ => None
          end
      | Thrown _ => None
      end
  | Claude => None
  | Grok => None
  end.

(** The response of [generateContent] carries the total the backend reports. *)
Definition passes_usage (b : Backend) (a : Adapter)
    (request : GenerateContentParameters) : Prop :=
  forall n,
    reported_total b a request = Some n ->
    exists resp m,
      generateContent (adapter_generator b a) request = Returned resp
      /\ usageMetadata resp = Some m
      /\ totalTokens m = Some n.

Inductive Operation : Type :=
| OpGenerateContent
| OpGenerateContentStream
| OpCountTokens
| OpEmbedContent.

Record Requests : Type := mkRequests {
  generate_request : GenerateContentParameters;
  count_request : CountTokensParameters;
  embed_request : EmbedContentParameters;
}.

(** The message an operation of a generator throws on its request, if it
    throws. *)
Definition invoke (g : ContentGenerator) (op : Operation) (r : Requests) : option string :=
  match op with
  | OpGenerateContent => thrown_message (generateContent g (generate_request r))
  | OpGenerateContentStream =>
      thrown_message (generateContentStream g (generate_request r))
  | OpCountTokens => thrown_message (countTokens g (count_request r))
  | OpEmbedContent => thrown_message (embedContent g (embed_request r))
  end.

(** The operations an adapter implements; the others are bodies that only
    throw. *)
Definition supported (a : Adapter) (op : Operation) : bool :=
  match a, op with
  | (OpenAI | OpenAI2), OpCountTokens => false
  | (OpenAI | OpenAI2), _ => true
  | Claude, OpGenerateContent => true
  | Claude, _ => false
  | Grok, _ => false
  end.

(** An unsupported operation fails with a "not implemented" message that
    names the adapter's provider. *)
Definition unsupported_names_provider (a : Adapter) (op : Operation) : Prop :=
  forall b r,
    exists msg,
      invoke (adapter_generator b a) op r = Some msg
      /\ Js.includes msg "not implemented" = true
      /\ Js.includes msg (provider_name a) = true.

(** The texts of the chunks a stream call yields, chunk by chunk. *)
Definition chunk_texts (chunks : list GenerateContentResponse) : list (list string) :=
  (fun chunk => candidate_text <$> candidates chunk) <$> chunks.

(** What the claims about construction say, as predicates on a constructor. *)

(** Construction fails, naming [envKey], whenever neither the configuration
    nor the environment holds a key. *)
Definition fails_without_key
    (create : ContentGeneratorConfig -> Config -> option string -> M ContentGenerator)
    (envKey : string) : Prop :=
  forall config gc sid proc,
    Js.truthy (cfg_apiKey config) = false ->
    Js.truthy (env proc !! envKey) = false ->
    exists msg, result (create config gc sid proc) = Thrown msg
                /\ Js.includes msg envKey = true.

(** The whole key resolution of a constructor: the explicit key first, the
    environment variable second (read only then), an error naming the variable
    and no client otherwise. *)
Definition resolves_key
    (create : ContentGeneratorConfig -> Config -> option string -> M ContentGenerator)
    (sdk : SDK) (envKey : string) (generator_of : option string -> ContentGenerator)
  : Prop :=
  forall config gc sid proc,
    let explicit := cfg_apiKey config in
    let fallback := env proc !! envKey in
    if Js.truthy explicit then
      create config gc sid proc
      = ([ClientNew sdk explicit], Returned (generator_of explicit))
    else if Js.truthy fallback then
      create config gc sid proc
      = ([EnvRead envKey; ClientNew sdk fallback], Returned (generator_of fallback))
    else
      exists msg, create config gc sid proc = ([EnvRead envKey], Thrown msg)
                  /\ Js.includes msg envKey = true.

(** What the claims about configuration resolution say. *)

(** The outcome of the resolution is the same in two processes that agree on
    the variables of the selected mode. *)
Definition independent_of_unrelated_keys (DEFAULT_GEMINI_MODEL : string) : Prop :=
  forall gc a p1 p2,
    (forall k, k ∈ selected_keys a -> env p1 !! k = env p2 !! k) ->
    result (createContentGeneratorConfig DEFAULT_GEMINI_MODEL gc a p1)
    = result (createContentGeneratorConfig DEFAULT_GEMINI_MODEL gc a p2).

(** The resolution reads no variable but those of the selected mode. *)
Definition reads_only_selected_keys (DEFAULT_GEMINI_MODEL : string) : Prop :=
  forall gc a proc k,
    EnvRead k ∈ trace (createContentGeneratorConfig DEFAULT_GEMINI_MODEL gc a proc) ->
    k ∈ selected_keys a.


(** ** Further notions for the properties of the factory and the adapters *)

(** The process with another environment. *)
Definition set_env (proc : Process) (e : gmap string string) : Process :=
  {| env := e; version := version proc; platform := platform proc; arch := arch proc |}.

(** The number of SDK clients constructed along a trace. *)
Definition client_count (t : list Event) : nat :=
  length (List.filter is_ClientNew t).

(** The provider tags whose constructors are the adapters above. *)
Definition embedded_tags : list string :=
  [Provider.GEMINI; Provider.OPENAI; Provider.CLAUDE; Provider.GROK].




(** A part that gives a message some text: a non-empty string, or an object
    with a non-empty [text]. *)
Definition has_text (p : Part) : bool :=
  match p with
  | PString (String _ _) => true
  | PObject (Some (String _ _)) => true
  | _ => false
  end.

(** The same for the second OpenAI adapter, which reads [text] only. *)
Definition has_object_text (p : Part) : bool :=
  match p with
  | PObject (Some (String _ _)) => true
  | _ => false
  end.

Definition is_object_part (p : Part) : bool :=
  match p with
  | PObject _ => true
  | PString _ => false
  end.

(** A turn as the type [Content[]] of the second OpenAI adapter and the
    [role] guard of the first expect it: an object that has the [role]
    property and whose parts are objects. *)
Definition typed_turn (item : ContentItem) : bool :=
  match item with
  | IString _ => false
  | IObject c => Js.has (role c) && forallb is_object_part (default [] (parts c))
  end.

(** The contents of the candidates of a response, as turns of a content list. *)
Definition as_turns (resp : GenerateContentResponse) : ContentListUnion :=
  CList ((fun c => IObject (content c)) <$> candidates resp).

(** ** Fixed backends and processes for the examples *)

Module Fixtures.

Definition openai (completion : OpenAISdk.ChatCompletion)
    (stream : list OpenAISdk.ChatCompletionChunk) : OpenAISdk.OpenAI :=
  {| OpenAISdk.chat_completions_create := fun _ => Returned completion;
     OpenAISdk.chat_completions_create_stream := fun _ => Returned stream;
     OpenAISdk.embeddings_create := fun _ => Returned {| OpenAISdk.data := [] |} |}.

Definition anthropic (message : AnthropicSdk.Message) : AnthropicSdk.Anthropic :=
  {| AnthropicSdk.messages_create := fun _ => Returned message |}.

Definition empty_completion : OpenAISdk.ChatCompletion :=
  {| OpenAISdk.choices := []; OpenAISdk.usage := None |}.

Definition empty_message : AnthropicSdk.Message :=
  {| AnthropicSdk.message_content := None; AnthropicSdk.usage := None |}.

Definition backend_of (completion : OpenAISdk.ChatCompletion)
    (message : AnthropicSdk.Message) : Backend :=
  {| openai_client := openai completion [];
     anthropic_client := anthropic message |}.

Definition backend : Backend := backend_of empty_completion empty_message.

(** A completion and a message with the text "Hi" and a token usage. *)
Definition hi_completion : OpenAISdk.ChatCompletion :=
  {| OpenAISdk.choices :=
       [{| OpenAISdk.message := Some {| OpenAISdk.message_content := Some "Hi" |} |}];
     OpenAISdk.usage := Some {| OpenAISdk.total_tokens := 42 |} |}.

Definition hi_message : AnthropicSdk.Message :=
  {| AnthropicSdk.message_content := Some [{| AnthropicSdk.text := Some "Hi" |}];
     AnthropicSdk.usage :=
       Some {| AnthropicSdk.input_tokens := 3; AnthropicSdk.output_tokens := 4 |} |}.

Definition requests : Requests :=
  {| generate_request := {| model := "m"; contents := None; config := None |};
     count_request := {| ct_model := "m"; ct_contents := None |};
     embed_request := {| em_model := "m"; em_contents := None |} |}.

Definition newOpenAI (_ : option string) : OpenAISdk.OpenAI := openai empty_completion [].
Definition newAnthropic (_ : option string) : AnthropicSdk.Anthropic :=
  anthropic empty_message.
Definition newGoogleGenAI (_ : GoogleGenaiProvider.GoogleGenAIOptions)
  : GoogleGenaiProvider.GoogleGenAI :=
  {| GoogleGenaiProvider.models := GrokProvider.generator |}.
Definition createCodeAssistContentGenerator (_ : HttpOptions) (_ : option AuthType)
    (_ : Config) (_ : option string) : M ContentGenerator :=
  mret GrokProvider.generator.
Definition createOtherProvider (_ : ContentGeneratorConfig) (_ : Config)
    (_ : option string) : M ContentGenerator :=
  mret GrokProvider.generator.

Definition process (vars : list (string * string)) : Process :=
  {| env := list_to_map vars; version := "v20.0.0"; platform := "linux";
     arch := "x64" |}.

Definition gcConfig : Config := {| getModel := ""; getProxy := None |}.

Definition generator_config (provider apiKey : option string) (authType : option AuthType)
  : ContentGeneratorConfig :=
  {| cfg_model := "gemini-2.5-pro"; cfg_provider := provider; cfg_apiKey := apiKey;
     cfg_vertexai := None; cfg_authType := authType; cfg_proxy := None |}.

Definition request_of (contents : option ContentListUnion) : GenerateContentParameters :=
  {| model := "m"; contents := contents; config := None |}.

End Fixtures.

(** * Properties *)

(** Unfold the effects of a computation. *)
Ltac run_M :=
  unfold mbind, M_bind, mret, M_ret, getenv_or_undefined, getenv, emit, throw, ask;
  cbn.

(** ** Strings *)

Lemma prefix_refl (s : string) : String.prefix s s = true.
Proof.
  induction s as [|a s IH]; simpl; [reflexivity|].
  destruct (Ascii.ascii_dec a a); [exact IH | congruence].
Qed.

Lemma includes_self (s : string) : Js.includes s s = true.
Proof. destruct s; cbn [Js.includes]; rewrite prefix_refl; reflexivity. Qed.

Lemma includes_app_r (p s : string) : Js.includes (p +:+ s) s = true.
Proof.
  induction p as [|a p IH].
  - apply includes_self.
  - change (String a p +:+ s) with (String a (p +:+ s)).
    cbn [Js.includes]. rewrite IH. apply orb_true_r.
Qed.

(** ** Running the effects *)

Lemma bind_getenv {A} (name : string) (k : option string -> M A) (proc : Process) :
  (getenv name ≫= k) proc
  = let '(t, o) := k (env proc !! name) proc in (EnvRead name :: t, o).
Proof. unfold mbind, M_bind, getenv. cbn. destruct (k _ proc). reflexivity. Qed.

Lemma bind_getenv_or_undefined {A} (name : string) (k : option string -> M A)
    (proc : Process) :
  (getenv_or_undefined name ≫= k) proc
  = let '(t, o) := k (Js.or_undefined (env proc !! name)) proc in (EnvRead name :: t, o).
Proof.
  unfold getenv_or_undefined, mbind, M_bind, mret, M_ret, getenv. cbn.
  destruct (k _ proc). reflexivity.
Qed.

Lemma make_httpOptions_run (proc : Process) :
  exists h, make_httpOptions proc = ([EnvRead "CLI_VERSION"], Returned h).
Proof. unfold make_httpOptions. run_M. eexists. reflexivity. Qed.

Lemma truthy_or_undefined (v : option string) :
  Js.truthy (Js.or_undefined v) = Js.truthy v.
Proof. unfold Js.or_undefined. destruct (Js.truthy v) eqn:E; [exact E | reflexivity]. Qed.

(** ** Adapter construction *)

Lemma openai_resolves_key newOpenAI :
  resolves_key (OpenaiProvider.createProvider newOpenAI) OpenAI_SDK "OPENAI_API_KEY"
    (fun k => OpenaiProvider.generator (newOpenAI k)).
Proof.
  intros config gc sid proc explicit fallback. subst explicit fallback.
  unfold OpenaiProvider.createProvider.
  destruct (Js.truthy (cfg_apiKey config)) eqn:E.
  - run_M. rewrite E. reflexivity.
  - run_M. destruct (Js.truthy (env proc !! "OPENAI_API_KEY")) eqn:F; cbn.
    + reflexivity.
    + eexists. split; reflexivity.
Qed.

Lemma openai2_resolves_key newOpenAI :
  resolves_key (OpenaiProvider2.createProvider newOpenAI) OpenAI_SDK "OPENAI_API_KEY"
    (fun k => OpenaiProvider2.generator (newOpenAI k)).
Proof.
  intros config gc sid proc explicit fallback. subst explicit fallback.
  unfold OpenaiProvider2.createProvider.
  destruct (Js.truthy (cfg_apiKey config)) eqn:E.
  - run_M. rewrite E. reflexivity.
  - run_M. destruct (Js.truthy (env proc !! "OPENAI_API_KEY")) eqn:F; cbn.
    + reflexivity.
    + eexists. split; reflexivity.
Qed.

Lemma claude_resolves_key newAnthropic :
  resolves_key (ClaudeProvider.createProvider newAnthropic) Anthropic_SDK
    "ANTHROPIC_API_KEY" (fun k => ClaudeProvider.generator (newAnthropic k)).
Proof.
  intros config gc sid proc explicit fallback. subst explicit fallback.
  unfold ClaudeProvider.createProvider.
  destruct (Js.truthy (cfg_apiKey config)) eqn:E.
  - run_M. rewrite E. reflexivity.
  - run_M. destruct (Js.truthy (env proc !! "ANTHROPIC_API_KEY")) eqn:F; cbn.
    + reflexivity.
    + eexists. split; reflexivity.
Qed.

Lemma grok_constructs (config : ContentGeneratorConfig) gc sid proc :
  GrokProvider.createProvider config gc sid proc = ([], Returned GrokProvider.generator).
Proof. reflexivity. Qed.

(** ** The factory *)

Section Factory.

Variable newOpenAI : option string -> OpenAISdk.OpenAI.
Variable newAnthropic : option string -> AnthropicSdk.Anthropic.
Variable newGoogleGenAI :
  GoogleGenaiProvider.GoogleGenAIOptions -> GoogleGenaiProvider.GoogleGenAI.
Variable createCodeAssistContentGenerator :
  HttpOptions -> option AuthType -> Config -> option string -> M ContentGenerator.
Variables createDoubaoProvider createQwenProvider createKimiProvider
  createDeepseekProvider :
  ContentGeneratorConfig -> Config -> option string -> M ContentGenerator.

#[local] Abbreviation factory :=
  (createContentGenerator newOpenAI newAnthropic newGoogleGenAI
     createCodeAssistContentGenerator createDoubaoProvider createQwenProvider
     createKimiProvider createDeepseekProvider).

(** The factory first builds its HTTP options, then runs the branch of the
    provider tag. *)
Lemma factory_run (config : ContentGeneratorConfig) gc sid proc :
  exists h,
    make_httpOptions proc = ([EnvRead "CLI_VERSION"], Returned h) /\
    factory config gc sid proc
    = let provider := default Provider.GEMINI (cfg_provider config) in
      let '(t, o) :=
        (if String.eqb provider Provider.GEMINI then
           if is_managed (cfg_authType config) then
             createCodeAssistContentGenerator h (cfg_authType config) gc sid
           else createGoogleGenaiProvider newGoogleGenAI config gc sid
         else if String.eqb provider Provider.OPENAI then
           createOpenaiProvider newOpenAI config gc sid
         else if String.eqb provider Provider.CLAUDE then
           createClaudeProvider newAnthropic config gc sid
         else if String.eqb provider Provider.GROK then
           createGrokProvider config gc sid
         else if String.eqb provider Provider.DOUBAO then
           createDoubaoProvider config gc sid
         else if String.eqb provider Provider.QWEN then
           createQwenProvider config gc sid
         else if String.eqb provider Provider.KIMI then
           createKimiProvider config gc sid
         else if String.eqb provider Provider.DEEPSEEK then
           createDeepseekProvider config gc sid
         else
           throw ("Error creating contentGenerator: Unsupported provider: "
                    +:+ provider)) proc in
      (EnvRead "CLI_VERSION" :: t, o).
Proof.
  destruct (make_httpOptions_run proc) as [h Hh].
  exists h. split; [exact Hh|].
  unfold createContentGenerator.
  unfold mbind at 1. unfold M_bind. rewrite Hh. reflexivity.
Qed.

Lemma unknown_tag_eqb (tag known : string) :
  tag ∉ Provider.all -> known ∈ Provider.all -> String.eqb tag known = false.
Proof.
  intros Hout Hin. apply String.eqb_neq. intros ->. exact (Hout Hin).
Qed.

(** C2: a provider tag outside the closed enumeration makes the factory fail
    with the unsupported-provider error whose message ends in that tag; the
    only effect before the failure is the read of CLI_VERSION, so no backend
    client has been constructed. *)
Theorem C2_unknown_provider_rejected (tag : string)
    (config : ContentGeneratorConfig) gc sid proc :
  tag ∉ Provider.all ->
  cfg_provider config = Some tag ->
  let r := factory config gc sid proc in
  result r = Thrown ("Error creating contentGenerator: Unsupported provider: " +:+ tag)
  /\ (exists msg, result r = Thrown msg /\ Js.includes msg tag = true)
  /\ trace r = [EnvRead "CLI_VERSION"]
  /\ (forall e, e ∈ trace r -> is_ClientNew e = false).
Proof.
  intros Hout Hcfg r.
  assert (Hr : r = ([EnvRead "CLI_VERSION"],
                    Thrown ("Error creating contentGenerator: Unsupported provider: "
                              +:+ tag))).
  { subst r. destruct (factory_run config gc sid proc) as [h [_ ->]].
    rewrite Hcfg. cbn [default from_option id].
    rewrite !(unknown_tag_eqb tag) by (assumption || (unfold Provider.all; set_solver)).
    reflexivity. }
  rewrite Hr. unfold result, trace. cbn [fst snd].
  split; [reflexivity|]. split.
  - eexists. split; [reflexivity|]. apply includes_app_r.
  - split; [reflexivity|].
    intros e He. apply list_elem_of_singleton in He. subst e. reflexivity.
Qed.

(** C1 (amended): the two OpenAI adapters and the Claude adapter resolve their
    key at construction: the explicit configuration value first, the provider's
    environment variable second (read only when the explicit value is missing
    or empty), and when neither holds a non-empty key the construction throws,
    before any client exists, an error whose message names the variable.  Through
    the factory, provider 'openai' without any key fails at creation time with
    a message naming OPENAI_API_KEY.  The Grok adapter is a placeholder: its
    construction reads no key and always returns. *)
Theorem C1_key_required_at_construction :
  resolves_key (OpenaiProvider.createProvider newOpenAI) OpenAI_SDK "OPENAI_API_KEY"
    (fun k => OpenaiProvider.generator (newOpenAI k))
  /\ resolves_key (OpenaiProvider2.createProvider newOpenAI) OpenAI_SDK "OPENAI_API_KEY"
       (fun k => OpenaiProvider2.generator (newOpenAI k))
  /\ resolves_key (ClaudeProvider.createProvider newAnthropic) Anthropic_SDK
       "ANTHROPIC_API_KEY" (fun k => ClaudeProvider.generator (newAnthropic k))
  /\ (forall (config : ContentGeneratorConfig) gc sid proc,
        cfg_provider config = Some Provider.OPENAI ->
        Js.truthy (cfg_apiKey config) = false ->
        Js.truthy (env proc !! "OPENAI_API_KEY") = false ->
        exists msg,
          factory config gc sid proc
          = ([EnvRead "CLI_VERSION"; EnvRead "OPENAI_API_KEY"], Thrown msg)
          /\ Js.includes msg "OPENAI_API_KEY" = true)
  /\ (forall (config : ContentGeneratorConfig) gc sid proc,
        GrokProvider.createProvider config gc sid proc
        = ([], Returned GrokProvider.generator)).
Proof.
  split; [apply openai_resolves_key|].
  split; [apply openai2_resolves_key|].
  split; [apply claude_resolves_key|].
  split; [|intros; apply grok_constructs].
  intros config gc sid proc Hp Hk He.
  destruct (factory_run config gc sid proc) as [h [_ ->]].
  rewrite Hp. cbn [default from_option id].
  change (Provider.OPENAI =? Provider.GEMINI)%string with false.
  change (Provider.OPENAI =? Provider.OPENAI)%string with true.
  cbv iota. unfold createOpenaiProvider.
  pose proof (openai_resolves_key newOpenAI config gc sid proc) as H.
  cbv zeta in H. rewrite Hk, He in H. destruct H as [msg [-> Hmsg]].
  exists msg. split; [reflexivity | exact Hmsg].
Qed.

(** C10: a configuration without a provider field is dispatched exactly as
    one tagged 'gemini'.  Under a managed auth mode the factory's outcome is
    the outcome of the Code Assist factory, called with the HTTP options, the
    auth mode, the session configuration and the session id; otherwise the
    factory constructs the Google GenAI client and returns its [models].  The
    unsupported-provider error is not raised. *)
Theorem C10_absent_provider_dispatches_as_gemini
    (model : string) (apiKey : option string) (vertexai : option bool)
    (authType : option AuthType) (proxy : option string) gc sid proc :
  let config :=
    {| cfg_model := model; cfg_provider := None; cfg_apiKey := apiKey;
       cfg_vertexai := vertexai; cfg_authType := authType; cfg_proxy := proxy |} in
  let tagged :=
    {| cfg_model := model; cfg_provider := Some Provider.GEMINI; cfg_apiKey := apiKey;
       cfg_vertexai := vertexai; cfg_authType := authType; cfg_proxy := proxy |} in
  factory config gc sid proc = factory tagged gc sid proc
  /\ exists h,
       make_httpOptions proc = ([EnvRead "CLI_VERSION"], Returned h) /\
       if is_managed authType then
         factory config gc sid proc
         = let '(t, o) := createCodeAssistContentGenerator h authType gc sid proc in
           (EnvRead "CLI_VERSION" :: t, o)
       else
         let key := match apiKey with Some "" => None | k => k end in
         factory config gc sid proc
         = ([EnvRead "CLI_VERSION"; EnvRead "CLI_VERSION";
             ClientNew GoogleGenAI_SDK key],
            Returned (GoogleGenaiProvider.models
                        (newGoogleGenAI
                           {| GoogleGenaiProvider.apiKey := key;
                              GoogleGenaiProvider.vertexai := vertexai;
                              GoogleGenaiProvider.httpOptions := h |}))).
Proof.
  intros config tagged.
  destruct (factory_run config gc sid proc) as [h [Hh Hc]].
  destruct (factory_run tagged gc sid proc) as [h' [Hh' Ht]].
  assert (h' = h) by congruence. subst h'.
  rewrite Hc, Ht. cbn [default from_option id cfg_provider config tagged cfg_authType].
  change (Provider.GEMINI =? Provider.GEMINI)%string with true. cbv iota.
  split.
  - destruct (is_managed authType); [reflexivity|].
    unfold createGoogleGenaiProvider, GoogleGenaiProvider.createProvider.
    unfold mbind at 1 3. unfold M_bind. rewrite Hh. reflexivity.
  - exists h. split; [exact Hh|].
    destruct (is_managed authType); [reflexivity|].
    unfold createGoogleGenaiProvider, GoogleGenaiProvider.createProvider.
    unfold mbind at 1. unfold M_bind. rewrite Hh.
    subst config. destruct apiKey as [[|a k]|]; reflexivity.
Qed.

End Factory.

Lemma C2_unknown_provider_rejected_witness :
  ("mistral" ∉ Provider.all)
  /\ result (createContentGenerator Fixtures.newOpenAI Fixtures.newAnthropic
               Fixtures.newGoogleGenAI Fixtures.createCodeAssistContentGenerator
               Fixtures.createOtherProvider Fixtures.createOtherProvider
               Fixtures.createOtherProvider Fixtures.createOtherProvider
               (Fixtures.generator_config (Some "mistral") None None)
               Fixtures.gcConfig None (Fixtures.process []))
     = Thrown "Error creating contentGenerator: Unsupported provider: mistral".
Proof.
  assert (H : "mistral" ∉ Provider.all).
  { unfold Provider.all. intros Hin. repeat (apply elem_of_cons in Hin as [Hin|Hin]; [discriminate Hin|]). inversion Hin. }
  split; [exact H|].
  exact (proj1 (C2_unknown_provider_rejected Fixtures.newOpenAI Fixtures.newAnthropic
                  Fixtures.newGoogleGenAI Fixtures.createCodeAssistContentGenerator
                  Fixtures.createOtherProvider Fixtures.createOtherProvider
                  Fixtures.createOtherProvider Fixtures.createOtherProvider
                  "mistral" (Fixtures.generator_config (Some "mistral") None None)
                  Fixtures.gcConfig None (Fixtures.process []) H eq_refl)).
Defined.

Lemma C1_key_required_at_construction_witness :
  exists msg,
    createContentGenerator Fixtures.newOpenAI Fixtures.newAnthropic
      Fixtures.newGoogleGenAI Fixtures.createCodeAssistContentGenerator
      Fixtures.createOtherProvider Fixtures.createOtherProvider
      Fixtures.createOtherProvider Fixtures.createOtherProvider
      (Fixtures.generator_config (Some "openai") None None)
      Fixtures.gcConfig None (Fixtures.process [])
    = ([EnvRead "CLI_VERSION"; EnvRead "OPENAI_API_KEY"], Thrown msg)
    /\ Js.includes msg "OPENAI_API_KEY" = true.
Proof.
  exact (proj1 (proj2 (proj2 (proj2
           (C1_key_required_at_construction Fixtures.newOpenAI Fixtures.newAnthropic
              Fixtures.newGoogleGenAI Fixtures.createCodeAssistContentGenerator
              Fixtures.createOtherProvider Fixtures.createOtherProvider
              Fixtures.createOtherProvider Fixtures.createOtherProvider))))
           (Fixtures.generator_config (Some "openai") None None)
           Fixtures.gcConfig None (Fixtures.process []) eq_refl eq_refl eq_refl).
Defined.

(** C1 as stated fails on the Grok adapter: with no key in the configuration
    and none in the environment its constructor returns a generator. *)
Lemma C1_grok_constructs_without_key :
  ~ fails_without_key GrokProvider.createProvider "GROK_API_KEY".
Proof.
  intros H.
  destruct (H (Fixtures.generator_config (Some "grok") None None) Fixtures.gcConfig
              None (Fixtures.process []) eq_refl eq_refl) as [msg [Hr _]].
  discriminate Hr.
Qed.

(** ** Configuration resolution *)

Section Resolution.

Variable DEFAULT_GEMINI_MODEL : string.

#[local] Abbreviation resolve := (createContentGeneratorConfig DEFAULT_GEMINI_MODEL).
#[local] Abbreviation base := (base_config DEFAULT_GEMINI_MODEL).

(** What a run of the resolution is, mode by mode.  Each variable is read and
    normalised with [|| undefined]; the mode decides which value is looked at. *)
Lemma createContentGeneratorConfig_run (gc : Config) (a : option AuthType) (proc : Process) :
  let v k := Js.or_undefined (env proc !! k) in
  let keyed k :=
    if Js.truthy (v k) then (config_reads, Returned (set_apiKey (base gc a) (v k)))
    else (config_reads, Returned (base gc a)) in
  resolve gc a proc =
    match a with
    | Some USE_GEMINI =>
        if Js.truthy (v "GEMINI_API_KEY") then
          (config_reads
             ++ [EffectiveModelCall (v "GEMINI_API_KEY") (cfg_model (base gc a))
                   (getProxy gc)],
           Returned (set_vertexai (set_apiKey (base gc a) (v "GEMINI_API_KEY")) false))
        else (config_reads, Returned (base gc a))
    | Some USE_VERTEX_AI =>
        if Js.truthy (v "GOOGLE_API_KEY")
           || (Js.truthy (v "GOOGLE_CLOUD_PROJECT")
               && Js.truthy (v "GOOGLE_CLOUD_LOCATION")) then
          (config_reads,
           Returned (set_vertexai (set_apiKey (base gc a) (v "GOOGLE_API_KEY")) true))
        else (config_reads, Returned (base gc a))
    | Some USE_OPENAI => keyed "OPENAI_API_KEY"
    | Some USE_CLAUDE => keyed "ANTHROPIC_API_KEY"
    | Some USE_GROK => keyed "GROK_API_KEY"
    | Some USE_DOUBAO => keyed "DOUBAO_API_KEY"
    | Some USE_QWEN => keyed "QWEN_API_KEY"
    | Some USE_KIMI => keyed "KIMI_API_KEY"
    | Some USE_DEEPSEEK => keyed "DEEPSEEK_API_KEY"
    | Some LOGIN_WITH_GOOGLE | Some CLOUD_SHELL | None =>
        (config_reads, Returned (base gc a))
    end.
Proof.
  intros v keyed. subst keyed v. unfold createContentGeneratorConfig.
  repeat (rewrite bind_getenv_or_undefined; cbv beta).
  generalize (Js.or_undefined (env proc !! "GEMINI_API_KEY")) as k1.
  generalize (Js.or_undefined (env proc !! "GOOGLE_API_KEY")) as k2.
  generalize (Js.or_undefined (env proc !! "GOOGLE_CLOUD_PROJECT")) as k3.
  generalize (Js.or_undefined (env proc !! "GOOGLE_CLOUD_LOCATION")) as k4.
  generalize (Js.or_undefined (env proc !! "OPENAI_API_KEY")) as k5.
  generalize (Js.or_undefined (env proc !! "ANTHROPIC_API_KEY")) as k6.
  generalize (Js.or_undefined (env proc !! "GROK_API_KEY")) as k7.
  generalize (Js.or_undefined (env proc !! "DOUBAO_API_KEY")) as k8.
  generalize (Js.or_undefined (env proc !! "QWEN_API_KEY")) as k9.
  generalize (Js.or_undefined (env proc !! "KIMI_API_KEY")) as k10.
  generalize (Js.or_undefined (env proc !! "DEEPSEEK_API_KEY")) as k11.
  intros. unfold base_config.
  destruct a as [[]|]; unfold is_managed;
    repeat match goal with
           | |- context [bool_decide ?P] =>
               let b := eval vm_compute in (bool_decide P) in
               change (bool_decide P) with b
           end;
    cbn [andb orb];
    repeat match goal with
           | |- context [Js.truthy ?k] => is_var k; destruct (Js.truthy k); cbn [andb orb]
           end;
    reflexivity.
Qed.

(** C3: configuration resolution returns a configuration for every session
    configuration, auth mode and environment.  Under a managed auth mode
    (LOGIN_WITH_GOOGLE, CLOUD_SHELL) the result is the configuration built from
    model, auth mode and proxy alone, with no key looked at and no further
    effect; under a key-based mode whose key variable is unset or empty the
    result has no apiKey. *)
Theorem C3_config_resolution_never_fails (gc : Config) (a : option AuthType)
    (proc : Process) :
  exists cfg,
    result (resolve gc a proc) = Returned cfg
    /\ (is_managed a = true ->
          cfg = base gc a /\ trace (resolve gc a proc) = config_reads)
    /\ (forall mode k,
          a = Some mode -> api_key_var mode = Some k ->
          Js.truthy (env proc !! k) = false -> cfg_apiKey cfg = None).
Proof.
  rewrite createContentGeneratorConfig_run. cbv zeta.
  destruct a as [[]|];
    repeat match goal with
           | |- context [if ?b then _ else _] => destruct b eqn:?
           end;
    (eexists; split; [reflexivity|]; split;
     [ intros Hm; first [ discriminate Hm | split; reflexivity ]
     | intros mode k Hmode Hvar Hk;
       first [ discriminate Hmode | injection Hmode as <- ];
       first [ discriminate Hvar | injection Hvar as <- ];
       cbn [cfg_apiKey set_apiKey set_vertexai base_config];
       rewrite ?truthy_or_undefined in *;
       first [ reflexivity
             | congruence
             | unfold Js.or_undefined; rewrite Hk; reflexivity ] ]).
Qed.

(** C9 (amended): the outcome of the resolution depends only on the variables
    of the selected auth mode: two processes that agree on them yield the same
    run, whatever the other providers' variables hold, so no unrelated key is
    validated.  All eleven variables are read on every run, the selected mode's
    or not. *)
Theorem C9_config_depends_on_selected_keys_only (gc : Config) (a : option AuthType)
    (p1 p2 : Process) :
  (forall k, k ∈ selected_keys a -> env p1 !! k = env p2 !! k) ->
  resolve gc a p1 = resolve gc a p2
  /\ exists extra, trace (resolve gc a p1) = config_reads ++ extra.
Proof.
  intros H. rewrite !createContentGeneratorConfig_run. cbv zeta.
  destruct a as [[]|]; cbn [selected_keys] in H;
    repeat match goal with
           | |- context [env p1 !! ?key] =>
               rewrite (H key) by (repeat constructor)
           end;
    (split; [reflexivity|]);
    repeat match goal with
           | |- context [if ?b then _ else _] => destruct b
           end;
    unfold trace; cbn [fst];
    first [ exists []; rewrite app_nil_r; reflexivity | eexists; reflexivity ].
Qed.

End Resolution.

Lemma C3_config_resolution_never_fails_witness :
  exists cfg,
    result (createContentGeneratorConfig "gemini-2.5-pro" Fixtures.gcConfig
              (Some USE_OPENAI) (Fixtures.process [("GEMINI_API_KEY", "g-key")]))
    = Returned cfg
    /\ cfg_apiKey cfg = None.
Proof.
  destruct (C3_config_resolution_never_fails "gemini-2.5-pro" Fixtures.gcConfig
              (Some USE_OPENAI) (Fixtures.process [("GEMINI_API_KEY", "g-key")]))
    as [cfg [Hr [_ Hk]]].
  exists cfg. split; [exact Hr|].
  exact (Hk USE_OPENAI "OPENAI_API_KEY" eq_refl eq_refl eq_refl).
Defined.

Lemma C9_config_depends_on_selected_keys_only_witness :
  createContentGeneratorConfig "gemini-2.5-pro" Fixtures.gcConfig (Some USE_OPENAI)
    (Fixtures.process [("OPENAI_API_KEY", "sk-1")])
  = createContentGeneratorConfig "gemini-2.5-pro" Fixtures.gcConfig (Some USE_OPENAI)
      (Fixtures.process [("OPENAI_API_KEY", "sk-1"); ("GEMINI_API_KEY", "g-key");
                         ("ANTHROPIC_API_KEY", "")]).
Proof.
  refine (proj1 (C9_config_depends_on_selected_keys_only "gemini-2.5-pro"
                   Fixtures.gcConfig (Some USE_OPENAI)
                   (Fixtures.process [("OPENAI_API_KEY", "sk-1")])
                   (Fixtures.process [("OPENAI_API_KEY", "sk-1");
                                      ("GEMINI_API_KEY", "g-key");
                                      ("ANTHROPIC_API_KEY", "")]) _)).
  intros k Hk. apply list_elem_of_singleton in Hk. subst k. vm_compute. reflexivity.
Defined.

(** C9 as stated fails: under USE_OPENAI the resolution reads GEMINI_API_KEY
    (and every other provider's variable), which is not a variable of the
    selected mode. *)
Lemma C9_unrelated_keys_are_read :
  ~ (independent_of_unrelated_keys "gemini-2.5-pro"
     /\ reads_only_selected_keys "gemini-2.5-pro").
Proof.
  intros [_ H].
  specialize (H Fixtures.gcConfig (Some USE_OPENAI) (Fixtures.process [])
                "GEMINI_API_KEY").
  assert (Hin : "GEMINI_API_KEY" ∈ selected_keys (Some USE_OPENAI)).
  { apply H. rewrite createContentGeneratorConfig_run. vm_compute. constructor. }
  apply list_elem_of_singleton in Hin. discriminate Hin.
Qed.

(** ** Translation of content lists *)

Lemma append_empty_r (x : string) : x +:+ "" = x.
Proof.
  induction x as [|c x IHx]; [reflexivity|].
  change (String c x +:+ "") with (String c (x +:+ "")). rewrite IHx. reflexivity.
Qed.

(** Joining with the empty separator is concatenation in order. *)
Lemma join_empty_sep (l : list string) : Js.join "" l = foldr String.append "" l.
Proof.
  unfold Js.join. induction l as [|x [|y l] IH]; cbn [String.concat foldr].
  - reflexivity.
  - symmetry. apply append_empty_r.
  - cbn [String.concat foldr] in IH. rewrite IH. reflexivity.
Qed.

Lemma join_singleton (sep x : string) : Js.join sep [x] = x.
Proof. reflexivity. Qed.

(** openaiProvider.ts: a bare string of a list is a [user] message carrying
    it; an object without a [role] property is a [user] message; a turn that
    has a role keeps it and carries its parts' texts concatenated in order. *)
Lemma openai_item_string (s : string) :
  OpenaiProvider.item_to_message (IString s)
  = {| OpenAISdk.msg_role := Some "user"; OpenAISdk.msg_content := s |}.
Proof. reflexivity. Qed.

Lemma openai_item_without_role (ps : option (list Part)) :
  OpenAISdk.msg_role
    (OpenaiProvider.item_to_message (IObject {| role := Js.Absent; parts := ps |}))
  = Some "user".
Proof. reflexivity. Qed.

Lemma openai_item_with_role (r : string) (ps : list Part) :
  OpenaiProvider.item_to_message (IObject {| role := Js.Present r; parts := Some ps |})
  = {| OpenAISdk.msg_role := Some r;
       OpenAISdk.msg_content :=
         foldr String.append "" (OpenaiProvider.part_to_text <$> ps) |}.
Proof. cbn. rewrite <- join_empty_sep. reflexivity. Qed.

Lemma openai_messages_length (l : list ContentItem) :
  length (OpenaiProvider.toOpenAIMessages (Some (CList l))) = length l.
Proof. cbn. apply length_fmap. Qed.

(** claudeProvider.ts: a bare string of a list is a [user] message carrying
    it; a turn carries its parts' texts concatenated in order, a part without
    text counting for the empty string; the role is the turn's own. *)
Lemma claude_item_string (s : string) :
  ClaudeProvider.item_to_message (IString s)
  = {| AnthropicSdk.msg_role := Some "user"; AnthropicSdk.msg_content := s |}.
Proof. reflexivity. Qed.

Lemma claude_item_object (r : Js.field string) (ps : list Part) :
  ClaudeProvider.item_to_message (IObject {| role := r; parts := Some ps |})
  = {| AnthropicSdk.msg_role := Js.get r;
       AnthropicSdk.msg_content :=
         foldr String.append "" (ClaudeProvider.part_to_text <$> ps) |}.
Proof. cbn. rewrite <- join_empty_sep. reflexivity. Qed.

Lemma part_without_text_is_empty :
  OpenaiProvider.part_to_text (PObject None) = ""
  /\ OpenaiProvider2.part_to_text (PObject None) = ""
  /\ ClaudeProvider.part_to_text (PObject None) = "".
Proof. repeat split. Qed.

(** C6: the translations at a turn that has no [role] property.  The Claude
    adapter and the second OpenAI adapter give the message the role
    [undefined], not [user]; the first OpenAI adapter gives it the role [user]
    but the content "[object Object]" in place of the concatenated texts; the
    second OpenAI adapter turns a bare string of the list into a message with
    no role and empty content. *)
Theorem C6_translation_of_turn_without_role :
  ClaudeProvider.toAnthropicMessages
    (Some (CList [IObject {| role := Js.Absent; parts := Some [PObject (Some "hi")] |}]))
  = [{| AnthropicSdk.msg_role := None; AnthropicSdk.msg_content := "hi" |}]
  /\ OpenaiProvider2.toOpenAIMessages
       (CList [IObject {| role := Js.Absent; parts := Some [PObject (Some "hi")] |}])
     = Returned [{| OpenAISdk.msg_role := None; OpenAISdk.msg_content := "hi" |}]
  /\ OpenaiProvider.toOpenAIMessages
       (Some (CList [IObject {| role := Js.Absent;
                                parts := Some [PObject (Some "a"); PObject (Some "b")] |}]))
     = [{| OpenAISdk.msg_role := Some "user";
           OpenAISdk.msg_content := "[object Object]" |}]
  /\ OpenaiProvider2.toOpenAIMessages (CList [IString "hi"])
     = Returned [{| OpenAISdk.msg_role := None; OpenAISdk.msg_content := "" |}].
Proof. repeat split. Qed.

(** ** The four operations *)

Lemma openai_generateContent_run (client : OpenAISdk.OpenAI)
    (request : GenerateContentParameters) (completion : OpenAISdk.ChatCompletion) :
  OpenAISdk.chat_completions_create client
    (chat_params request
       (OpenaiProvider.toOpenAIMessages (Some (contents_or_empty (contents request))))
       false)
  = Returned completion ->
  OpenaiProvider.generateContent client request
  = Returned
      {| candidates := [model_candidate (OpenaiProvider.completion_text completion)];
         usageMetadata :=
           Some {| totalTokens :=
                     OpenAISdk.total_tokens <$> OpenAISdk.usage completion |} |}.
Proof.
  intros H. unfold OpenaiProvider.generateContent. unfold chat_params in H.
  cbv zeta. rewrite H. reflexivity.
Qed.

Lemma openai2_generateContent_run (client : OpenAISdk.OpenAI)
    (request : GenerateContentParameters) (l : list ContentItem)
    (completion : OpenAISdk.ChatCompletion) :
  contents_or_empty (contents request) = CList l ->
  OpenAISdk.chat_completions_create client
    (chat_params request (OpenaiProvider2.item_to_message <$> l) false)
  = Returned completion ->
  OpenaiProvider2.generateContent client request
  = Returned
      {| candidates := [model_candidate (OpenaiProvider2.completion_text completion)];
         usageMetadata :=
           Some {| totalTokens :=
                     OpenAISdk.total_tokens <$> OpenAISdk.usage completion |} |}.
Proof.
  intros Hl H. unfold OpenaiProvider2.generateContent. rewrite Hl.
  unfold chat_params in H. cbn [OpenaiProvider2.toOpenAIMessages].
  unfold mbind at 1. unfold outcome_bind. rewrite H. reflexivity.
Qed.

Lemma claude_generateContent_run (client : AnthropicSdk.Anthropic)
    (request : GenerateContentParameters) (message : AnthropicSdk.Message) :
  AnthropicSdk.messages_create client (claude_params request) = Returned message ->
  ClaudeProvider.generateContent client request
  = Returned
      {| candidates := [model_candidate (ClaudeProvider.completion_text message)];
         usageMetadata := None |}.
Proof.
  intros H. unfold ClaudeProvider.generateContent. unfold claude_params in H.
  cbv zeta. rewrite H. reflexivity.
Qed.

Lemma returned_inv {A} (o : outcome A) : returned o = true -> exists a, o = Returned a.
Proof. destruct o as [a|msg]; [eauto | discriminate]. Qed.

Lemma openai_no_content_text (completion : OpenAISdk.ChatCompletion) :
  OpenAISdk.no_content completion ->
  OpenaiProvider.completion_text completion = ""
  /\ OpenaiProvider2.completion_text completion = "".
Proof.
  unfold OpenAISdk.no_content, OpenaiProvider.completion_text,
    OpenaiProvider2.completion_text.
  intros ->. split; reflexivity.
Qed.

Lemma claude_no_content_text (message : AnthropicSdk.Message) :
  AnthropicSdk.no_content message -> ClaudeProvider.completion_text message = "".
Proof.
  unfold AnthropicSdk.no_content, ClaudeProvider.completion_text. intros ->. reflexivity.
Qed.

(** C4 (amended): with a reachable backend, [generateContent] of the first
    OpenAI adapter and of the Claude adapter returns, for every request, a
    response with exactly one candidate of role [model] whose text is the text
    of the backend's answer to the translated request, and the empty text when
    that answer has no content; so does the second OpenAI adapter on a request
    whose contents are absent or an array.  [generateContent] of the Grok
    placeholder rejects every request with "Provider not implemented". *)
Theorem C4_generateContent_one_model_candidate (b : Backend)
    (request : GenerateContentParameters) :
  reachable b ->
  (exists completion resp,
      OpenAISdk.chat_completions_create (openai_client b)
        (chat_params request
           (OpenaiProvider.toOpenAIMessages (Some (contents_or_empty (contents request))))
           false)
      = Returned completion
      /\ generateContent (adapter_generator b OpenAI) request = Returned resp
      /\ one_model_candidate resp (OpenaiProvider.completion_text completion)
      /\ (OpenAISdk.no_content completion -> one_model_candidate resp ""))
  /\ (forall l,
        contents_or_empty (contents request) = CList l ->
        exists completion resp,
          OpenAISdk.chat_completions_create (openai_client b)
            (chat_params request (OpenaiProvider2.item_to_message <$> l) false)
          = Returned completion
          /\ generateContent (adapter_generator b OpenAI2) request = Returned resp
          /\ one_model_candidate resp (OpenaiProvider2.completion_text completion)
          /\ (OpenAISdk.no_content completion -> one_model_candidate resp ""))
  /\ (exists message resp,
        AnthropicSdk.messages_create (anthropic_client b) (claude_params request)
        = Returned message
        /\ generateContent (adapter_generator b Claude) request = Returned resp
        /\ one_model_candidate resp (ClaudeProvider.completion_text message)
        /\ (AnthropicSdk.no_content message -> one_model_candidate resp ""))
  /\ generateContent (adapter_generator b Grok) request
     = Thrown "Provider not implemented".
Proof.
  intros [Hopenai Hclaude]. repeat split.
  - destruct (returned_inv _ (Hopenai
        (chat_params request
           (OpenaiProvider.toOpenAIMessages (Some (contents_or_empty (contents request))))
           false))) as [completion Hc].
    exists completion. eexists. split; [exact Hc|]. split.
    + cbn [adapter_generator OpenaiProvider.generator generateContent].
      apply openai_generateContent_run. exact Hc.
    + split; [reflexivity|].
      intros Hn. unfold one_model_candidate. cbn [candidates].
      rewrite (proj1 (openai_no_content_text _ Hn)). reflexivity.
  - intros l Hl.
    destruct (returned_inv _ (Hopenai
        (chat_params request (OpenaiProvider2.item_to_message <$> l) false)))
      as [completion Hc].
    exists completion. eexists. split; [exact Hc|]. split.
    + cbn [adapter_generator OpenaiProvider2.generator generateContent].
      apply (openai2_generateContent_run _ _ l); [exact Hl | exact Hc].
    + split; [reflexivity|].
      intros Hn. unfold one_model_candidate. cbn [candidates].
      rewrite (proj2 (openai_no_content_text _ Hn)). reflexivity.
  - destruct (returned_inv _ (Hclaude (claude_params request))) as [message Hm].
    exists message. eexists. split; [exact Hm|]. split.
    + cbn [adapter_generator ClaudeProvider.generator generateContent].
      apply claude_generateContent_run. exact Hm.
    + split; [reflexivity|].
      intros Hn. unfold one_model_candidate. cbn [candidates].
      rewrite (claude_no_content_text _ Hn). reflexivity.
Qed.

Lemma fixtures_reachable (completion : OpenAISdk.ChatCompletion)
    (message : AnthropicSdk.Message) :
  reachable (Fixtures.backend_of completion message).
Proof. split; intros p; reflexivity. Qed.

Lemma C4_generateContent_one_model_candidate_witness :
  generateContent (adapter_generator Fixtures.backend Grok)
    (Fixtures.request_of (Some (CString "hello")))
  = Thrown "Provider not implemented"
  /\ exists completion resp,
       generateContent (adapter_generator Fixtures.backend OpenAI)
         (Fixtures.request_of (Some (CString "hello"))) = Returned resp
       /\ one_model_candidate resp (OpenaiProvider.completion_text completion).
Proof.
  destruct (C4_generateContent_one_model_candidate Fixtures.backend
              (Fixtures.request_of (Some (CString "hello")))
              (fixtures_reachable Fixtures.empty_completion Fixtures.empty_message))
    as [[completion [resp [_ [Hr [Hone _]]]]] [_ [_ Hgrok]]].
  split; [exact Hgrok|].
  exists completion, resp. split; [exact Hr | exact Hone].
Defined.

(** C4 as stated fails on the Grok adapter: its backend-free [generateContent]
    returns no response, whatever the request. *)
Lemma C4_grok_generateContent_rejects :
  reachable Fixtures.backend
  /\ ~ generates_one_model_candidate Fixtures.backend Grok
         (Fixtures.request_of (Some (CString "hello"))).
Proof.
  split; [apply fixtures_reachable|].
  intros [resp [text [H _]]]. discriminate H.
Qed.

(** The generator of a stream call yields, for each chunk of the backend
    stream and in the stream's order, one response with the chunk's own text. *)
Lemma iterator_fmap (stream : list OpenAISdk.ChatCompletionChunk) :
  OpenaiProvider.iterator stream
  = (fun chunk =>
       {| candidates := [model_candidate (OpenaiProvider.chunk_text chunk)];
          usageMetadata := None |}) <$> stream.
Proof. induction stream as [|chunk rest IH]; cbn; [reflexivity | rewrite IH; reflexivity]. Qed.

Lemma iterator2_iterator (stream : list OpenAISdk.ChatCompletionChunk) :
  OpenaiProvider2.iterator stream = OpenaiProvider.iterator stream.
Proof. induction stream as [|chunk rest IH]; cbn; [reflexivity | rewrite IH; reflexivity]. Qed.

Lemma iterator_deltas (texts : list string) :
  chunk_texts (OpenaiProvider.iterator (OpenAISdk.delta_chunk <$> texts))
  = (fun t => [t]) <$> texts.
Proof. induction texts as [|t texts IH]; cbn; [reflexivity | f_equal; exact IH]. Qed.

(** C5: when the backend answers the streaming call with a stream,
    [generateContentStream] returns a generator that yields exactly one chunk
    per backend chunk, in the stream's order, each carrying one candidate of
    role [model] with that chunk's own delta text, and nothing after the last
    backend chunk; on the deltas "Hel", "lo" it yields two chunks with the
    texts "Hel" and "lo".  The second OpenAI adapter's generator yields the
    same chunks, and its [generateContentStream], on contents that are absent
    or an array, returns the generator over the stream the backend answers its
    call with, with the same three properties. *)
Theorem C5_stream_one_chunk_per_delta (client : OpenAISdk.OpenAI)
    (request : GenerateContentParameters)
    (stream : list OpenAISdk.ChatCompletionChunk) :
  OpenAISdk.chat_completions_create_stream client
    (chat_params request
       (OpenaiProvider.toOpenAIMessages (Some (contents_or_empty (contents request))))
       true)
  = Returned stream ->
  exists chunks,
    OpenaiProvider.generateContentStream client request = Returned chunks
    /\ length chunks = length stream
    /\ (forall i chunk,
          stream !! i = Some chunk ->
          chunks !! i
          = Some {| candidates := [model_candidate (OpenaiProvider.chunk_text chunk)];
                    usageMetadata := None |})
    /\ (forall texts,
          stream = OpenAISdk.delta_chunk <$> texts ->
          chunk_texts chunks = (fun t => [t]) <$> texts)
    /\ (stream = OpenAISdk.delta_chunk <$> ["Hel"; "lo"] ->
        chunk_texts chunks = [["Hel"]; ["lo"]])
    /\ OpenaiProvider2.iterator stream = chunks
    /\ (forall l stream2,
          contents_or_empty (contents request) = CList l ->
          OpenAISdk.chat_completions_create_stream client
            (chat_params request (OpenaiProvider2.item_to_message <$> l) true)
          = Returned stream2 ->
          exists chunks2,
            OpenaiProvider2.generateContentStream client request = Returned chunks2
            /\ length chunks2 = length stream2
            /\ (forall i chunk,
                  stream2 !! i = Some chunk ->
                  chunks2 !! i
                  = Some {| candidates :=
                              [model_candidate (OpenaiProvider2.chunk_text chunk)];
                            usageMetadata := None |})
            /\ (forall texts,
                  stream2 = OpenAISdk.delta_chunk <$> texts ->
                  chunk_texts chunks2 = (fun t => [t]) <$> texts)).
Proof.
  intros H. exists (OpenaiProvider.iterator stream).
  split.
  { unfold OpenaiProvider.generateContentStream. unfold chat_params in H.
    cbv zeta. rewrite H. reflexivity. }
  split; [rewrite iterator_fmap; apply length_fmap|].
  split.
  { intros i chunk Hi. rewrite iterator_fmap, list_lookup_fmap, Hi. reflexivity. }
  split; [intros texts ->; apply iterator_deltas|].
  split; [intros ->; reflexivity|].
  split; [apply iterator2_iterator|].
  intros l stream2 Hl H2. exists (OpenaiProvider.iterator stream2).
  split.
  { unfold OpenaiProvider2.generateContentStream. rewrite Hl.
    cbn [OpenaiProvider2.toOpenAIMessages]. unfold chat_params in H2.
    unfold mbind, outcome_bind. unfold mbind in H2. rewrite H2.
    rewrite iterator2_iterator. reflexivity. }
  split; [rewrite iterator_fmap; apply length_fmap|].
  split.
  { intros i chunk Hi. rewrite iterator_fmap, list_lookup_fmap, Hi. reflexivity. }
  intros texts ->. apply iterator_deltas.
Qed.

Lemma C5_stream_one_chunk_per_delta_witness :
  let client :=
    Fixtures.openai Fixtures.empty_completion (OpenAISdk.delta_chunk <$> ["Hel"; "lo"]) in
  let request :=
    Fixtures.request_of
      (Some (CList [IObject {| role := Js.Present "user";
                               parts := Some [PObject (Some "hello")] |}])) in
  (exists chunks,
     OpenaiProvider.generateContentStream client request = Returned chunks
     /\ length chunks = 2
     /\ chunk_texts chunks = [["Hel"]; ["lo"]])
  /\ (exists chunks2,
        OpenaiProvider2.generateContentStream client request = Returned chunks2
        /\ length chunks2 = 2
        /\ chunk_texts chunks2 = [["Hel"]; ["lo"]]).
Proof.
  intros client request.
  destruct (C5_stream_one_chunk_per_delta client request
              (OpenAISdk.delta_chunk <$> ["Hel"; "lo"]) eq_refl)
    as [chunks [Hr [Hlen [_ [_ [Htexts [_ H2]]]]]]].
  split.
  - exists chunks. split; [exact Hr|]. split; [exact Hlen | exact (Htexts eq_refl)].
  - destruct (H2 _ (OpenAISdk.delta_chunk <$> ["Hel"; "lo"]) eq_refl eq_refl)
      as [chunks2 [Hr2 [Hlen2 [_ Ht2]]]].
    exists chunks2. split; [exact Hr2|].
    split; [exact Hlen2 | exact (Ht2 ["Hel"; "lo"] eq_refl)].
Defined.

(** C8: whenever the backend's answer to an adapter's single-shot call reports
    a total token count, [generateContent] returns a response whose usage
    metadata carries that count.  Such a count is [usage.total_tokens] of the
    completion an OpenAI adapter receives; the message the Claude adapter
    receives has no total-token field (and the adapter's response has no usage
    metadata), and the Grok placeholder makes no call. *)
Theorem C8_usage_passthrough (b : Backend) (request : GenerateContentParameters) :
  (forall a, passes_usage b a request)
  /\ (forall completion,
        OpenAISdk.chat_completions_create (openai_client b)
          (chat_params request
             (OpenaiProvider.toOpenAIMessages
                (Some (contents_or_empty (contents request)))) false)
        = Returned completion ->
        generateContent (adapter_generator b OpenAI) request
        = Returned
            {| candidates := [model_candidate (OpenaiProvider.completion_text completion)];
               usageMetadata :=
                 Some {| totalTokens :=
                           OpenAISdk.total_tokens <$> OpenAISdk.usage completion |} |})
  /\ (forall l completion,
        contents_or_empty (contents request) = CList l ->
        OpenAISdk.chat_completions_create (openai_client b)
          (chat_params request (OpenaiProvider2.item_to_message <$> l) false)
        = Returned completion ->
        generateContent (adapter_generator b OpenAI2) request
        = Returned
            {| candidates := [model_candidate (OpenaiProvider2.completion_text completion)];
               usageMetadata :=
                 Some {| totalTokens :=
                           OpenAISdk.total_tokens <$> OpenAISdk.usage completion |} |})
  /\ (forall resp,
        generateContent (adapter_generator b Claude) request = Returned resp ->
        usageMetadata resp = None).
Proof.
  split; [|split; [|split]].
  - intros a n H. destruct a; try discriminate H.
    + unfold reported_total in H.
      destruct (OpenAISdk.chat_completions_create _ _) as [completion|msg] eqn:E;
        [|discriminate H].
      eexists. eexists. split.
      * cbn [adapter_generator OpenaiProvider.generator generateContent].
        apply openai_generateContent_run. exact E.
      * cbn [usageMetadata totalTokens]. split; [reflexivity | exact H].
    + unfold reported_total in H.
      destruct (contents_or_empty (contents request)) as [s|c|l] eqn:El;
        cbn [OpenaiProvider2.toOpenAIMessages] in H; try discriminate H.
      destruct (OpenAISdk.chat_completions_create _ _) as [completion|msg] eqn:E;
        [|discriminate H].
      eexists. eexists. split.
      * cbn [adapter_generator OpenaiProvider2.generator generateContent].
        apply (openai2_generateContent_run _ _ l); [exact El | exact E].
      * cbn [usageMetadata totalTokens]. split; [reflexivity | exact H].
  - intros completion H.
    cbn [adapter_generator OpenaiProvider.generator generateContent].
    apply openai_generateContent_run. exact H.
  - intros l completion Hl H.
    cbn [adapter_generator OpenaiProvider2.generator generateContent].
    apply (openai2_generateContent_run _ _ l); [exact Hl | exact H].
  - intros resp.
    cbn [adapter_generator ClaudeProvider.generator generateContent].
    unfold ClaudeProvider.generateContent. cbv zeta.
    destruct (AnthropicSdk.messages_create _ _) as [message|msg]; cbn.
    + intros [= <-]. reflexivity.
    + intros H. discriminate H.
Qed.

Lemma C8_usage_passthrough_witness :
  exists resp m,
    generateContent
      (adapter_generator (Fixtures.backend_of Fixtures.hi_completion Fixtures.hi_message)
         OpenAI)
      (Fixtures.request_of (Some (CString "hello")))
    = Returned resp
    /\ usageMetadata resp = Some m
    /\ totalTokens m = Some 42%Z.
Proof.
  exact (proj1 (C8_usage_passthrough
                  (Fixtures.backend_of Fixtures.hi_completion Fixtures.hi_message)
                  (Fixtures.request_of (Some (CString "hello"))))
           OpenAI 42%Z eq_refl).
Defined.

(** C7 (amended): [countTokens] fails on every adapter, and an operation an
    adapter does not implement throws, on every request and without a backend
    call, one fixed message that contains "not implemented".  The messages of
    the OpenAI and Claude adapters name the provider; the Grok placeholder
    throws "Provider not implemented" for each of its four operations, which
    names no provider.  The operations counted as implemented are those that
    can return. *)
Theorem C7_unsupported_operations_fail (a : Adapter) (op : Operation) :
  (forall b req, returned (countTokens (adapter_generator b a) req) = false)
  /\ (supported a op = false ->
      exists msg,
        (forall b r, invoke (adapter_generator b a) op r = Some msg)
        /\ Js.includes msg "not implemented" = true
        /\ match a with
           | Grok => msg = "Provider not implemented"
           | _ => Js.includes msg (provider_name a) = true
           end)
  /\ (supported a op = true ->
      exists b r, invoke (adapter_generator b a) op r = None).
Proof.
  split; [|split].
  - intros b req. destruct a; reflexivity.
  - destruct a, op; cbn [supported]; intros H; try discriminate H;
      (eexists; split; [intros b r; reflexivity | split; reflexivity]).
  - intros H. exists Fixtures.backend, Fixtures.requests.
    destruct a, op; cbn [supported] in H; try discriminate H; reflexivity.
Qed.

Lemma C7_unsupported_operations_fail_witness :
  exists msg,
    invoke (adapter_generator Fixtures.backend Claude) OpEmbedContent Fixtures.requests
    = Some msg
    /\ Js.includes msg "not implemented" = true
    /\ Js.includes msg "Claude" = true.
Proof.
  destruct (proj1 (proj2 (C7_unsupported_operations_fail Claude OpEmbedContent)) eq_refl)
    as [msg [Hm [Hn Hp]]].
  exists msg. split; [exact (Hm Fixtures.backend Fixtures.requests)|].
  split; [exact Hn | exact Hp].
Defined.

(** C7 as stated fails on the Grok adapter: the message of its [countTokens]
    contains "not implemented" but not the provider's name, in either case. *)
Lemma C7_grok_message_names_no_provider :
  supported Grok OpCountTokens = false
  /\ ~ unsupported_names_provider Grok OpCountTokens
  /\ invoke (adapter_generator Fixtures.backend Grok) OpCountTokens Fixtures.requests
     = Some "Provider not implemented"
  /\ Js.includes "Provider not implemented" "grok" = false.
Proof.
  split; [reflexivity|]. split; [|split; reflexivity].
  intros H. destruct (H Fixtures.backend Fixtures.requests) as [msg [Hm [_ Hp]]].
  cbn in Hm. injection Hm as <-. vm_compute in Hp. discriminate Hp.
Qed.

(** * Further properties *)

(** ** Configuration resolution, mode by mode *)

Lemma or_undefined_cases (v : option string) :
  Js.or_undefined v = None \/ Js.truthy (Js.or_undefined v) = true.
Proof.
  unfold Js.or_undefined. destruct (Js.truthy v) eqn:E; [right; exact E | left; reflexivity].
Qed.

Lemma or_undefined_truthy (v : option string) :
  Js.truthy v = true -> Js.or_undefined v = v.
Proof. unfold Js.or_undefined. intros ->. reflexivity. Qed.

Lemma truthy_Some (key : string) : key <> "" -> Js.truthy (Some key) = true.
Proof. destruct key; [congruence | reflexivity]. Qed.

(** An empty value and a missing variable read alike after [|| undefined]. *)
Lemma or_undefined_insert_empty (e : gmap string string) (k k' : string) :
  Js.or_undefined (<[k := ""]> e !! k') = Js.or_undefined (delete k e !! k').
Proof.
  destruct (decide (k = k')) as [->|Hne].
  - rewrite lookup_insert_eq, lookup_delete_eq. reflexivity.
  - rewrite lookup_insert_ne, lookup_delete_ne by exact Hne. reflexivity.
Qed.

Section ResolutionFacts.

Variable DEFAULT_GEMINI_MODEL : string.

#[local] Abbreviation resolve := (createContentGeneratorConfig DEFAULT_GEMINI_MODEL).
#[local] Abbreviation base := (base_config DEFAULT_GEMINI_MODEL).

(** Every run returns a configuration without a provider tag, whose key is
    missing or non-empty. *)
Lemma resolve_returns (gc : Config) (a : option AuthType) (proc : Process) :
  exists t cfg,
    resolve gc a proc = (t, Returned cfg)
    /\ cfg_provider cfg = None
    /\ cfg_authType cfg = a
    /\ (cfg_apiKey cfg = None \/ Js.truthy (cfg_apiKey cfg) = true).
Proof.
  rewrite createContentGeneratorConfig_run. cbv zeta.
  destruct a as [[]|];
    repeat match goal with
           | |- context [if ?b then _ else _] => destruct b eqn:?
           end;
    (eexists; eexists; split; [reflexivity|]; split; [reflexivity|];
     split; [reflexivity|]);
    cbn [cfg_apiKey set_apiKey set_vertexai base_config];
    first [ left; reflexivity | right; assumption | apply or_undefined_cases ].
Qed.

(** The resolved configuration keeps the auth mode and the proxy it was given,
    takes the session's model or, when that is empty, the default model, never
    names a provider, and never carries an empty API key. *)
Theorem resolved_config_shape (gc : Config) (a : option AuthType) (proc : Process) :
  exists cfg,
    result (resolve gc a proc) = Returned cfg
    /\ cfg_provider cfg = None
    /\ cfg_authType cfg = a
    /\ cfg_proxy cfg = getProxy gc
    /\ cfg_model cfg = (if String.eqb (getModel gc) "" then DEFAULT_GEMINI_MODEL
                        else getModel gc)
    /\ cfg_apiKey cfg <> Some "".
Proof.
  rewrite createContentGeneratorConfig_run. cbv zeta.
  assert (Hm : cfg_model (base gc a)
               = if String.eqb (getModel gc) "" then DEFAULT_GEMINI_MODEL
                 else getModel gc).
  { unfold base_config. cbn [cfg_model]. destruct (getModel gc); reflexivity. }
  destruct a as [[]|];
    repeat match goal with
           | |- context [if ?b then _ else _] => destruct b eqn:?
           end;
    (eexists; split; [reflexivity|]; split; [reflexivity|];
     split; [reflexivity|]; split; [reflexivity|]; split; [exact Hm|]);
    cbn [cfg_apiKey set_apiKey set_vertexai base_config];
    try discriminate;
    match goal with
    | |- Js.or_undefined ?v <> _ =>
        destruct (or_undefined_cases v) as [E|E];
        [ rewrite E; discriminate | intros E'; rewrite E' in E; discriminate E ]
    end.
Qed.

(** Under a chat provider's auth mode whose key variable holds a non-empty
    value, the resolved configuration is the base configuration with exactly
    that value as its API key; nothing but the eleven reads happens. *)
Theorem resolution_attaches_chat_key (gc : Config) (mode : AuthType) (k key : string)
    (proc : Process) :
  api_key_var mode = Some k ->
  mode <> USE_GEMINI ->
  mode <> USE_VERTEX_AI ->
  env proc !! k = Some key ->
  key <> "" ->
  resolve gc (Some mode) proc
  = (config_reads, Returned (set_apiKey (base gc (Some mode)) (Some key))).
Proof.
  intros Hk Hg Hv He Hkey.
  rewrite createContentGeneratorConfig_run. cbv zeta.
  pose proof (truthy_Some key Hkey) as Ht.
  destruct mode; try congruence; try discriminate Hk;
    injection Hk as <-; rewrite He, (or_undefined_truthy _ Ht), Ht; reflexivity.
Qed.

(** The model check [getEffectiveModel] is called exactly when the auth mode
    is USE_GEMINI and GEMINI_API_KEY is non-empty, once, after the reads, with
    that key, the resolved model and the proxy. *)
Theorem model_check_only_in_gemini_mode (gc : Config) (a : option AuthType)
    (proc : Process) :
  trace (resolve gc a proc)
  = config_reads
      ++ (if bool_decide (a = Some USE_GEMINI)
             && Js.truthy (env proc !! "GEMINI_API_KEY")
          then [EffectiveModelCall (env proc !! "GEMINI_API_KEY")
                  (cfg_model (base gc a)) (getProxy gc)]
          else []).
Proof.
  rewrite createContentGeneratorConfig_run. cbv zeta.
  destruct a as [[]|];
    repeat match goal with
           | |- context [bool_decide ?P] =>
               let b := eval vm_compute in (bool_decide P) in
               change (bool_decide P) with b
           end;
    cbn [andb];
    try (repeat match goal with
                | |- context [if ?b then _ else _] => destruct b
                end;
         unfold trace; cbn [fst]; rewrite app_nil_r; reflexivity).
  rewrite truthy_or_undefined.
  destruct (Js.truthy (env proc !! "GEMINI_API_KEY")) eqn:E.
  - rewrite (or_undefined_truthy _ E). reflexivity.
  - unfold trace. cbn [fst]. rewrite app_nil_r. reflexivity.
Qed.

(** The [vertexai] flag of the resolved configuration: [true] exactly under
    USE_VERTEX_AI with a non-empty GOOGLE_API_KEY or with both
    GOOGLE_CLOUD_PROJECT and GOOGLE_CLOUD_LOCATION non-empty (the key is then
    GOOGLE_API_KEY's value, possibly none); [false] exactly under USE_GEMINI
    with a non-empty GEMINI_API_KEY; unset otherwise. *)
Theorem vertexai_flag (gc : Config) (a : option AuthType) (proc : Process) :
  let v k := env proc !! k in
  exists cfg,
    result (resolve gc a proc) = Returned cfg
    /\ cfg_vertexai cfg
       = (if bool_decide (a = Some USE_VERTEX_AI)
             && (Js.truthy (v "GOOGLE_API_KEY")
                 || (Js.truthy (v "GOOGLE_CLOUD_PROJECT")
                     && Js.truthy (v "GOOGLE_CLOUD_LOCATION")))
          then Some true
          else if bool_decide (a = Some USE_GEMINI) && Js.truthy (v "GEMINI_API_KEY")
               then Some false
               else None)
    /\ (cfg_vertexai cfg = Some true ->
        cfg_apiKey cfg = Js.or_undefined (v "GOOGLE_API_KEY")).
Proof.
  intros v. subst v. cbv beta.
  rewrite createContentGeneratorConfig_run. cbv zeta.
  rewrite !truthy_or_undefined.
  destruct a as [[]|];
    repeat match goal with
           | |- context [bool_decide ?P] =>
               let b := eval vm_compute in (bool_decide P) in
               change (bool_decide P) with b
           end;
    cbn [andb];
    repeat match goal with
           | |- context [if ?b then _ else _] => destruct b
           end;
    (eexists; split; [reflexivity|]; split; [reflexivity|]);
    cbn [cfg_vertexai cfg_apiKey set_vertexai set_apiKey base_config];
    intros H; first [ discriminate H | reflexivity ].
Qed.

(** A variable set to the empty string is resolved exactly as a variable that
    is not set, whichever variable and whichever auth mode. *)
Theorem resolution_empty_value_is_unset (gc : Config) (a : option AuthType)
    (proc : Process) (k : string) :
  resolve gc a (set_env proc (<[k := ""]> (env proc)))
  = resolve gc a (set_env proc (delete k (env proc))).
Proof.
  rewrite !createContentGeneratorConfig_run. cbv zeta. cbn [env set_env].
  rewrite !or_undefined_insert_empty. reflexivity.
Qed.

End ResolutionFacts.

Lemma resolution_attaches_chat_key_witness :
  createContentGeneratorConfig "gemini-2.5-pro" Fixtures.gcConfig (Some USE_CLAUDE)
    (Fixtures.process [("ANTHROPIC_API_KEY", "sk-ant"); ("OPENAI_API_KEY", "sk-1")])
  = (config_reads,
     Returned (set_apiKey (base_config "gemini-2.5-pro" Fixtures.gcConfig (Some USE_CLAUDE))
                 (Some "sk-ant"))).
Proof.
  refine (resolution_attaches_chat_key "gemini-2.5-pro" Fixtures.gcConfig USE_CLAUDE
            "ANTHROPIC_API_KEY" "sk-ant"
            (Fixtures.process [("ANTHROPIC_API_KEY", "sk-ant"); ("OPENAI_API_KEY", "sk-1")])
            eq_refl _ _ _ _).
  - discriminate.
  - discriminate.
  - vm_compute. reflexivity.
  - discriminate.
Defined.

Lemma vertexai_flag_witness :
  exists cfg,
    result (createContentGeneratorConfig "gemini-2.5-pro" Fixtures.gcConfig
              (Some USE_VERTEX_AI)
              (Fixtures.process [("GOOGLE_CLOUD_PROJECT", "p");
                                 ("GOOGLE_CLOUD_LOCATION", "us")]))
    = Returned cfg
    /\ cfg_vertexai cfg = Some true
    /\ cfg_apiKey cfg = None.
Proof.
  destruct (vertexai_flag "gemini-2.5-pro" Fixtures.gcConfig (Some USE_VERTEX_AI)
              (Fixtures.process [("GOOGLE_CLOUD_PROJECT", "p");
                                 ("GOOGLE_CLOUD_LOCATION", "us")]))
    as [cfg [Hr [Hv Hk]]].
  exists cfg. split; [exact Hr|]. split; [exact Hv|]. exact (Hk Hv).
Defined.

(** ** Construction, constructor by constructor *)

Lemma or_undefined_eq_cases (v v' : option string) :
  Js.or_undefined v = Js.or_undefined v' ->
  (Js.truthy v = false /\ Js.truthy v' = false) \/ v = v'.
Proof.
  unfold Js.or_undefined.
  destruct (Js.truthy v) eqn:E, (Js.truthy v') eqn:E'; intros H.
  - right. exact H.
  - subst v. discriminate E.
  - subst v'. discriminate E'.
  - left. split; reflexivity.
Qed.

(** A keyed constructor looks at the configuration's key and, when that is
    missing or empty, at its own variable; at nothing else. *)
Lemma openai_createProvider_congr newOpenAI (c c' : ContentGeneratorConfig)
    gc gc' sid sid' (p p' : Process) :
  cfg_apiKey c = cfg_apiKey c' ->
  (Js.truthy (cfg_apiKey c) = false ->
   Js.or_undefined (env p !! "OPENAI_API_KEY") = Js.or_undefined (env p' !! "OPENAI_API_KEY")) ->
  OpenaiProvider.createProvider newOpenAI c gc sid p
  = OpenaiProvider.createProvider newOpenAI c' gc' sid' p'.
Proof.
  intros Hk He. unfold OpenaiProvider.createProvider. rewrite <- Hk.
  destruct (Js.truthy (cfg_apiKey c)) eqn:E.
  - run_M. rewrite E. reflexivity.
  - run_M.
    destruct (or_undefined_eq_cases _ _ (He eq_refl)) as [[-> ->]| ->];
      [reflexivity|].
    destruct (Js.truthy (env p' !! _)); reflexivity.
Qed.

Lemma openai2_createProvider_congr newOpenAI (c c' : ContentGeneratorConfig)
    gc gc' sid sid' (p p' : Process) :
  cfg_apiKey c = cfg_apiKey c' ->
  (Js.truthy (cfg_apiKey c) = false ->
   Js.or_undefined (env p !! "OPENAI_API_KEY") = Js.or_undefined (env p' !! "OPENAI_API_KEY")) ->
  OpenaiProvider2.createProvider newOpenAI c gc sid p
  = OpenaiProvider2.createProvider newOpenAI c' gc' sid' p'.
Proof.
  intros Hk He. unfold OpenaiProvider2.createProvider. rewrite <- Hk.
  destruct (Js.truthy (cfg_apiKey c)) eqn:E.
  - run_M. rewrite E. reflexivity.
  - run_M.
    destruct (or_undefined_eq_cases _ _ (He eq_refl)) as [[-> ->]| ->];
      [reflexivity|].
    destruct (Js.truthy (env p' !! _)); reflexivity.
Qed.

Lemma claude_createProvider_congr newAnthropic (c c' : ContentGeneratorConfig)
    gc gc' sid sid' (p p' : Process) :
  cfg_apiKey c = cfg_apiKey c' ->
  (Js.truthy (cfg_apiKey c) = false ->
   Js.or_undefined (env p !! "ANTHROPIC_API_KEY") = Js.or_undefined (env p' !! "ANTHROPIC_API_KEY")) ->
  ClaudeProvider.createProvider newAnthropic c gc sid p
  = ClaudeProvider.createProvider newAnthropic c' gc' sid' p'.
Proof.
  intros Hk He. unfold ClaudeProvider.createProvider. rewrite <- Hk.
  destruct (Js.truthy (cfg_apiKey c)) eqn:E.
  - run_M. rewrite E. reflexivity.
  - run_M.
    destruct (or_undefined_eq_cases _ _ (He eq_refl)) as [[-> ->]| ->];
      [reflexivity|].
    destruct (Js.truthy (env p' !! _)); reflexivity.
Qed.

(** The version in the User-Agent header: CLI_VERSION, or the runtime's
    version when CLI_VERSION is missing or empty. *)
Lemma make_httpOptions_eq (proc : Process) :
  make_httpOptions proc
  = ([EnvRead "CLI_VERSION"],
     Returned
       {| user_agent :=
            "GeminiCLI/"
              +:+ (if Js.truthy (env proc !! "CLI_VERSION")
                   then Js.or_empty (env proc !! "CLI_VERSION") else version proc)
              +:+ " (" +:+ platform proc +:+ "; " +:+ arch proc +:+ ")" |}).
Proof. reflexivity. Qed.

Lemma google_createProvider_eq newGoogleGenAI (config : ContentGeneratorConfig)
    gc sid (proc : Process) :
  exists h,
    make_httpOptions proc = ([EnvRead "CLI_VERSION"], Returned h) /\
    GoogleGenaiProvider.createProvider newGoogleGenAI config gc sid proc
    = let key := match cfg_apiKey config with Some "" => None | k => k end in
      ([EnvRead "CLI_VERSION"; ClientNew GoogleGenAI_SDK key],
       Returned (GoogleGenaiProvider.models
                   (newGoogleGenAI
                      {| GoogleGenaiProvider.apiKey := key;
                         GoogleGenaiProvider.vertexai := cfg_vertexai config;
                         GoogleGenaiProvider.httpOptions := h |}))).
Proof.
  eexists. split; [apply make_httpOptions_eq|].
  unfold GoogleGenaiProvider.createProvider.
  unfold mbind at 1. unfold M_bind. rewrite make_httpOptions_eq.
  destruct (cfg_apiKey config) as [[|a k]|]; reflexivity.
Qed.

(** googleGenaiProvider.ts: [createProvider] has no throw of its own; its own
    code reads CLI_VERSION and nothing else of the environment, calls the
    GoogleGenAI constructor once and returns the [models] of what that gives.
    The options of the call: the configuration's key, or [undefined] when that
    is missing or empty (no environment variable is put in its place by the
    adapter); the configuration's vertexai flag; the User-Agent
    "GeminiCLI/<version> (<platform>; <arch>)", the version being CLI_VERSION
    or, when that is missing or empty, the runtime's. *)
Theorem google_genai_provider_run newGoogleGenAI (config : ContentGeneratorConfig)
    gc sid (proc : Process) :
  exists opts,
    GoogleGenaiProvider.createProvider newGoogleGenAI config gc sid proc
    = ([EnvRead "CLI_VERSION";
        ClientNew GoogleGenAI_SDK (GoogleGenaiProvider.apiKey opts)],
       Returned (GoogleGenaiProvider.models (newGoogleGenAI opts)))
    /\ GoogleGenaiProvider.apiKey opts
       = (if Js.truthy (cfg_apiKey config) then cfg_apiKey config else None)
    /\ GoogleGenaiProvider.vertexai opts = cfg_vertexai config
    /\ user_agent (GoogleGenaiProvider.httpOptions opts)
       = "GeminiCLI/"
           +:+ (if Js.truthy (env proc !! "CLI_VERSION")
                then Js.or_empty (env proc !! "CLI_VERSION") else version proc)
           +:+ " (" +:+ platform proc +:+ "; " +:+ arch proc +:+ ")".
Proof.
  destruct (google_createProvider_eq newGoogleGenAI config gc sid proc) as [h [Hh Hrun]].
  exists {| GoogleGenaiProvider.apiKey :=
              match cfg_apiKey config with Some "" => None | k => k end;
            GoogleGenaiProvider.vertexai := cfg_vertexai config;
            GoogleGenaiProvider.httpOptions := h |}.
  split; [exact Hrun|]. cbn [GoogleGenaiProvider.apiKey
    GoogleGenaiProvider.vertexai GoogleGenaiProvider.httpOptions].
  split; [|split; [reflexivity|]].
  - destruct (cfg_apiKey config) as [[|a k]|]; reflexivity.
  - rewrite make_httpOptions_eq in Hh. injection Hh as <-. reflexivity.
Qed.

(** An empty OPENAI_API_KEY or ANTHROPIC_API_KEY is to a keyed constructor
    what a missing one is; with no key in the configuration either, each of
    the three constructors throws its key-required error. *)
Theorem constructor_empty_env_key_is_unset newOpenAI newAnthropic
    (config : ContentGeneratorConfig) gc sid (proc : Process) :
  OpenaiProvider.createProvider newOpenAI config gc sid
    (set_env proc (<["OPENAI_API_KEY" := ""]> (env proc)))
  = OpenaiProvider.createProvider newOpenAI config gc sid
      (set_env proc (delete "OPENAI_API_KEY" (env proc)))
  /\ OpenaiProvider2.createProvider newOpenAI config gc sid
       (set_env proc (<["OPENAI_API_KEY" := ""]> (env proc)))
     = OpenaiProvider2.createProvider newOpenAI config gc sid
         (set_env proc (delete "OPENAI_API_KEY" (env proc)))
  /\ ClaudeProvider.createProvider newAnthropic config gc sid
       (set_env proc (<["ANTHROPIC_API_KEY" := ""]> (env proc)))
     = ClaudeProvider.createProvider newAnthropic config gc sid
         (set_env proc (delete "ANTHROPIC_API_KEY" (env proc)))
  /\ (Js.truthy (cfg_apiKey config) = false ->
      result (OpenaiProvider.createProvider newOpenAI config gc sid
                (set_env proc (<["OPENAI_API_KEY" := ""]> (env proc))))
      = Thrown "OPENAI_API_KEY is required for OpenAI provider"
      /\ result (OpenaiProvider2.createProvider newOpenAI config gc sid
                   (set_env proc (<["OPENAI_API_KEY" := ""]> (env proc))))
         = Thrown "OPENAI_API_KEY is required for OpenAI provider"
      /\ result (ClaudeProvider.createProvider newAnthropic config gc sid
                   (set_env proc (<["ANTHROPIC_API_KEY" := ""]> (env proc))))
         = Thrown "ANTHROPIC_API_KEY is required for Claude provider").
Proof.
  split; [|split; [|split]].
  - apply openai_createProvider_congr; [reflexivity|].
    intros _. cbn [env set_env]. apply or_undefined_insert_empty.
  - apply openai2_createProvider_congr; [reflexivity|].
    intros _. cbn [env set_env]. apply or_undefined_insert_empty.
  - apply claude_createProvider_congr; [reflexivity|].
    intros _. cbn [env set_env]. apply or_undefined_insert_empty.
  - intros Hk.
    unfold OpenaiProvider.createProvider, OpenaiProvider2.createProvider,
      ClaudeProvider.createProvider.
    rewrite Hk. run_M. rewrite !lookup_insert_eq. repeat split.
Qed.

(** ** The factory on the provider tags of the embedded adapters *)

Lemma embedded_tag_cases (tag : string) :
  tag ∈ embedded_tags ->
  tag = Provider.GEMINI \/ tag = Provider.OPENAI \/ tag = Provider.CLAUDE
  \/ tag = Provider.GROK.
Proof.
  unfold embedded_tags. intros H.
  repeat (apply elem_of_cons in H as [H|H]; [auto|]).
  inversion H.
Qed.

Lemma client_count_cons (e : Event) (t : list Event) :
  client_count (e :: t) = (if is_ClientNew e then S (client_count t) else client_count t).
Proof. unfold client_count. cbn. destruct (is_ClientNew e); reflexivity. Qed.

Section FactoryFacts.

Variable DEFAULT_GEMINI_MODEL : string.
Variable newOpenAI : option string -> OpenAISdk.OpenAI.
Variable newAnthropic : option string -> AnthropicSdk.Anthropic.
Variable newGoogleGenAI :
  GoogleGenaiProvider.GoogleGenAIOptions -> GoogleGenaiProvider.GoogleGenAI.
Variable createCodeAssistContentGenerator :
  HttpOptions -> option AuthType -> Config -> option string -> M ContentGenerator.
Variables createDoubaoProvider createQwenProvider createKimiProvider
  createDeepseekProvider :
  ContentGeneratorConfig -> Config -> option string -> M ContentGenerator.

#[local] Abbreviation factory :=
  (createContentGenerator newOpenAI newAnthropic newGoogleGenAI
     createCodeAssistContentGenerator createDoubaoProvider createQwenProvider
     createKimiProvider createDeepseekProvider).

#[local] Abbreviation factory_run' :=
  (factory_run newOpenAI newAnthropic newGoogleGenAI
     createCodeAssistContentGenerator createDoubaoProvider createQwenProvider
     createKimiProvider createDeepseekProvider).

#[local] Abbreviation tag_of config := (default Provider.GEMINI (cfg_provider config)).

Lemma factory_gemini_run (config : ContentGeneratorConfig) gc sid proc :
  tag_of config = Provider.GEMINI ->
  is_managed (cfg_authType config) = false ->
  factory config gc sid proc
  = let '(t, o) := GoogleGenaiProvider.createProvider newGoogleGenAI config gc sid proc in
    (EnvRead "CLI_VERSION" :: t, o).
Proof.
  intros Ht Hm. destruct (factory_run' config gc sid proc) as [h [_ ->]].
  cbv zeta. rewrite Ht, Hm. reflexivity.
Qed.

Lemma factory_openai_run (config : ContentGeneratorConfig) gc sid proc :
  tag_of config = Provider.OPENAI ->
  factory config gc sid proc
  = let '(t, o) := OpenaiProvider.createProvider newOpenAI config gc sid proc in
    (EnvRead "CLI_VERSION" :: t, o).
Proof.
  intros Ht. destruct (factory_run' config gc sid proc) as [h [_ ->]].
  cbv zeta. rewrite Ht. reflexivity.
Qed.

Lemma factory_claude_run (config : ContentGeneratorConfig) gc sid proc :
  tag_of config = Provider.CLAUDE ->
  factory config gc sid proc
  = let '(t, o) := ClaudeProvider.createProvider newAnthropic config gc sid proc in
    (EnvRead "CLI_VERSION" :: t, o).
Proof.
  intros Ht. destruct (factory_run' config gc sid proc) as [h [_ ->]].
  cbv zeta. rewrite Ht. reflexivity.
Qed.

Lemma factory_grok_run (config : ContentGeneratorConfig) gc sid proc :
  tag_of config = Provider.GROK ->
  factory config gc sid proc
  = ([EnvRead "CLI_VERSION"], Returned GrokProvider.generator).
Proof.
  intros Ht. destruct (factory_run' config gc sid proc) as [h [_ ->]].
  cbv zeta. rewrite Ht. reflexivity.
Qed.

(** For the provider tags 'openai', 'claude' and 'grok' the factory looks at
    the tag and the API key of the configuration only: the auth mode (managed
    or not), the model, the proxy, the vertexai flag, the session
    configuration and the session id change nothing. *)
Theorem factory_off_gemini_ignores_session (tag : string)
    (config config' : ContentGeneratorConfig) gc gc' sid sid' proc :
  tag ∈ [Provider.OPENAI; Provider.CLAUDE; Provider.GROK] ->
  cfg_provider config = Some tag ->
  cfg_provider config' = Some tag ->
  cfg_apiKey config' = cfg_apiKey config ->
  factory config gc sid proc = factory config' gc' sid' proc.
Proof.
  intros Htag Hp Hp' Hk.
  assert (Ht : tag_of config = tag) by (rewrite Hp; reflexivity).
  assert (Ht' : tag_of config' = tag) by (rewrite Hp'; reflexivity).
  apply elem_of_cons in Htag as [->|Htag];
    [|apply elem_of_cons in Htag as [->|Htag];
      [|apply list_elem_of_singleton in Htag as ->]].
  - rewrite (factory_openai_run config), (factory_openai_run config') by assumption.
    rewrite (openai_createProvider_congr newOpenAI config config' gc gc' sid sid'
               proc proc); [reflexivity | symmetry; exact Hk | reflexivity].
  - rewrite (factory_claude_run config), (factory_claude_run config') by assumption.
    rewrite (claude_createProvider_congr newAnthropic config config' gc gc' sid sid'
               proc proc); [reflexivity | symmetry; exact Hk | reflexivity].
  - rewrite (factory_grok_run config), (factory_grok_run config') by assumption.
    reflexivity.
Qed.

(** On the tags of the embedded adapters (the primary one outside the managed
    auth modes) the factory constructs no client when it fails and exactly one
    when it returns, except for the Grok placeholder, which it returns without
    any client. *)
Theorem factory_client_count (config : ContentGeneratorConfig) gc sid proc :
  tag_of config ∈ embedded_tags ->
  (tag_of config = Provider.GEMINI -> is_managed (cfg_authType config) = false) ->
  let r := factory config gc sid proc in
  client_count (trace r)
  = (if returned (result r) && negb (String.eqb (tag_of config) Provider.GROK)
     then 1 else 0).
Proof.
  intros Htag Hm r. subst r.
  destruct (embedded_tag_cases _ Htag) as [Ht|[Ht|[Ht|Ht]]].
  - rewrite (factory_gemini_run config gc sid proc Ht (Hm Ht)), Ht.
    destruct (google_createProvider_eq newGoogleGenAI config gc sid proc)
      as [h [_ ->]].
    reflexivity.
  - rewrite (factory_openai_run config gc sid proc Ht), Ht.
    pose proof (openai_resolves_key newOpenAI config gc sid proc) as H.
    cbv zeta in H.
    destruct (Js.truthy (cfg_apiKey config));
      [|destruct (Js.truthy (env proc !! "OPENAI_API_KEY"))];
      [rewrite H; reflexivity | rewrite H; reflexivity |].
    destruct H as [msg [-> _]]. reflexivity.
  - rewrite (factory_claude_run config gc sid proc Ht), Ht.
    pose proof (claude_resolves_key newAnthropic config gc sid proc) as H.
    cbv zeta in H.
    destruct (Js.truthy (cfg_apiKey config));
      [|destruct (Js.truthy (env proc !! "ANTHROPIC_API_KEY"))];
      [rewrite H; reflexivity | rewrite H; reflexivity |].
    destruct H as [msg [-> _]]. reflexivity.
  - rewrite (factory_grok_run config gc sid proc Ht), Ht. reflexivity.
Qed.

(** The factory on a resolved configuration.  Resolution never sets the
    provider tag, so the factory takes the primary provider's branch whatever
    the auth mode was: under a managed mode it hands off to the Code Assist
    factory, and under every other mode, the chat providers' modes included,
    it constructs the Google GenAI client with the resolved key and vertexai
    flag, and no OpenAI or Anthropic client. *)
Theorem resolved_config_reaches_primary_branch (gc : Config) (a : option AuthType)
    (proc : Process) gc' sid (proc' : Process) :
  exists cfg h,
    result (createContentGeneratorConfig DEFAULT_GEMINI_MODEL gc a proc) = Returned cfg
    /\ make_httpOptions proc' = ([EnvRead "CLI_VERSION"], Returned h)
    /\ if is_managed a then
         factory cfg gc' sid proc'
         = let '(t, o) := createCodeAssistContentGenerator h a gc' sid proc' in
           (EnvRead "CLI_VERSION" :: t, o)
       else
         factory cfg gc' sid proc'
         = ([EnvRead "CLI_VERSION"; EnvRead "CLI_VERSION";
             ClientNew GoogleGenAI_SDK (cfg_apiKey cfg)],
            Returned (GoogleGenaiProvider.models
                        (newGoogleGenAI
                           {| GoogleGenaiProvider.apiKey := cfg_apiKey cfg;
                              GoogleGenaiProvider.vertexai := cfg_vertexai cfg;
                              GoogleGenaiProvider.httpOptions := h |}))).
Proof.
  destruct (resolve_returns DEFAULT_GEMINI_MODEL gc a proc)
    as [t [cfg [Hrun [Hp [Ha Hk]]]]].
  destruct (factory_run' cfg gc' sid proc') as [h [Hh Hf]].
  exists cfg, h. split; [rewrite Hrun; reflexivity|]. split; [exact Hh|].
  rewrite Hf. cbv zeta. rewrite Hp, Ha. cbn [default from_option id].
  change (Provider.GEMINI =? Provider.GEMINI)%string with true. cbv iota.
  destruct (is_managed a); [reflexivity|].
  unfold createGoogleGenaiProvider.
  destruct (google_createProvider_eq newGoogleGenAI cfg gc' sid proc')
    as [h' [Hh' ->]].
  assert (h' = h) by congruence. subst h'.
  destruct Hk as [Hk|Hk].
  - rewrite Hk. reflexivity.
  - destruct (cfg_apiKey cfg) as [[|c k]|]; try discriminate Hk; reflexivity.
Qed.

End FactoryFacts.

Lemma constructor_empty_env_key_is_unset_witness :
  result (OpenaiProvider.createProvider Fixtures.newOpenAI
            (Fixtures.generator_config (Some "openai") (Some "") None)
            Fixtures.gcConfig None
            (set_env (Fixtures.process [])
               (<["OPENAI_API_KEY" := ""]> (env (Fixtures.process [])))))
  = Thrown "OPENAI_API_KEY is required for OpenAI provider".
Proof.
  exact (proj1 (proj2 (proj2 (proj2
           (constructor_empty_env_key_is_unset Fixtures.newOpenAI Fixtures.newAnthropic
              (Fixtures.generator_config (Some "openai") (Some "") None)
              Fixtures.gcConfig None (Fixtures.process [])))) eq_refl)).
Defined.

Lemma factory_off_gemini_ignores_session_witness :
  createContentGenerator Fixtures.newOpenAI Fixtures.newAnthropic
    Fixtures.newGoogleGenAI Fixtures.createCodeAssistContentGenerator
    Fixtures.createOtherProvider Fixtures.createOtherProvider
    Fixtures.createOtherProvider Fixtures.createOtherProvider
    (Fixtures.generator_config (Some "claude") (Some "sk-ant") (Some LOGIN_WITH_GOOGLE))
    Fixtures.gcConfig None (Fixtures.process [])
  = createContentGenerator Fixtures.newOpenAI Fixtures.newAnthropic
      Fixtures.newGoogleGenAI Fixtures.createCodeAssistContentGenerator
      Fixtures.createOtherProvider Fixtures.createOtherProvider
      Fixtures.createOtherProvider Fixtures.createOtherProvider
      (Fixtures.generator_config (Some "claude") (Some "sk-ant") (Some USE_OPENAI))
      {| getModel := "other"; getProxy := Some "http://proxy" |} (Some "session")
      (Fixtures.process []).
Proof.
  refine (factory_off_gemini_ignores_session Fixtures.newOpenAI Fixtures.newAnthropic
            Fixtures.newGoogleGenAI Fixtures.createCodeAssistContentGenerator
            Fixtures.createOtherProvider Fixtures.createOtherProvider
            Fixtures.createOtherProvider Fixtures.createOtherProvider
            "claude"
            (Fixtures.generator_config (Some "claude") (Some "sk-ant")
               (Some LOGIN_WITH_GOOGLE))
            (Fixtures.generator_config (Some "claude") (Some "sk-ant") (Some USE_OPENAI))
            Fixtures.gcConfig {| getModel := "other"; getProxy := Some "http://proxy" |}
            None (Some "session") (Fixtures.process []) _ eq_refl eq_refl eq_refl).
  apply list_elem_of_further, list_elem_of_here.
Defined.

Lemma factory_client_count_witness :
  client_count
    (trace (createContentGenerator Fixtures.newOpenAI Fixtures.newAnthropic
              Fixtures.newGoogleGenAI Fixtures.createCodeAssistContentGenerator
              Fixtures.createOtherProvider Fixtures.createOtherProvider
              Fixtures.createOtherProvider Fixtures.createOtherProvider
              (Fixtures.generator_config (Some "openai") None None)
              Fixtures.gcConfig None (Fixtures.process [("OPENAI_API_KEY", "sk-1")])))
  = 1.
Proof.
  refine (factory_client_count Fixtures.newOpenAI Fixtures.newAnthropic
            Fixtures.newGoogleGenAI Fixtures.createCodeAssistContentGenerator
            Fixtures.createOtherProvider Fixtures.createOtherProvider
            Fixtures.createOtherProvider Fixtures.createOtherProvider
            (Fixtures.generator_config (Some "openai") None None)
            Fixtures.gcConfig None (Fixtures.process [("OPENAI_API_KEY", "sk-1")]) _ _).
  - apply list_elem_of_further, list_elem_of_here.
  - intros H. discriminate H.
Defined.

(** ** What the factory's own code takes from the process *)






(** ** The operations and the backend *)

(** The operations of the first OpenAI adapter and [generateContent] of the
    Claude adapter fail exactly when their one backend call fails, and then
    with the backend's own message: no error is added, swallowed or
    rewritten. *)
Theorem operations_fail_as_backend (openai : OpenAISdk.OpenAI)
    (anthropic : AnthropicSdk.Anthropic) (request : GenerateContentParameters)
    (erequest : EmbedContentParameters) :
  let messages :=
    OpenaiProvider.toOpenAIMessages (Some (contents_or_empty (contents request))) in
  thrown_message (OpenaiProvider.generateContent openai request)
  = thrown_message (OpenAISdk.chat_completions_create openai
                      (chat_params request messages false))
  /\ thrown_message (OpenaiProvider.generateContentStream openai request)
     = thrown_message (OpenAISdk.chat_completions_create_stream openai
                         (chat_params request messages true))
  /\ thrown_message (OpenaiProvider.embedContent openai erequest)
     = thrown_message (OpenAISdk.embeddings_create openai
                         {| OpenAISdk.e_model := em_model erequest;
                            OpenAISdk.e_input := em_contents erequest |})
  /\ thrown_message (ClaudeProvider.generateContent anthropic request)
     = thrown_message (AnthropicSdk.messages_create anthropic (claude_params request)).
Proof.
  cbv zeta. unfold chat_params, claude_params. repeat split.
  - unfold OpenaiProvider.generateContent. cbv zeta.
    destruct (OpenAISdk.chat_completions_create _ _); reflexivity.
  - unfold OpenaiProvider.generateContentStream. cbv zeta.
    destruct (OpenAISdk.chat_completions_create_stream _ _); reflexivity.
  - unfold OpenaiProvider.embedContent.
    destruct (OpenAISdk.embeddings_create _ _); reflexivity.
  - unfold ClaudeProvider.generateContent. cbv zeta.
    destruct (AnthropicSdk.messages_create _ _); reflexivity.
Qed.

(** The second OpenAI adapter on the shapes of [request.contents]: on an
    array, or on absent or empty-string contents (an empty array then), its
    generate and stream operations fail exactly as the backend call on the
    translated items does; on a non-empty bare string or a single content
    object they throw "contents.map is not a function" whatever the backend
    would answer. *)
Theorem openai2_needs_array_contents (client : OpenAISdk.OpenAI)
    (request : GenerateContentParameters) :
  match contents_or_empty (contents request) with
  | CList l =>
      let messages := OpenaiProvider2.item_to_message <$> l in
      thrown_message (OpenaiProvider2.generateContent client request)
      = thrown_message (OpenAISdk.chat_completions_create client
                          (chat_params request messages false))
      /\ thrown_message (OpenaiProvider2.generateContentStream client request)
         = thrown_message (OpenAISdk.chat_completions_create_stream client
                             (chat_params request messages true))
  | _ =>
      OpenaiProvider2.generateContent client request
      = Thrown "contents.map is not a function"
      /\ OpenaiProvider2.generateContentStream client request
         = Thrown "contents.map is not a function"
  end.
Proof.
  unfold OpenaiProvider2.generateContent, OpenaiProvider2.generateContentStream,
    chat_params.
  destruct (contents_or_empty (contents request)) as [s|c|l];
    cbn [OpenaiProvider2.toOpenAIMessages]; [split; reflexivity ..|].
  cbv zeta. split; unfold mbind, outcome_bind.
  - destruct (OpenAISdk.chat_completions_create _ _); reflexivity.
  - destruct (OpenAISdk.chat_completions_create_stream _ _); reflexivity.
Qed.

(** [embedContent] of the OpenAI adapters returns one embedding per entry of
    the backend's [data], in the backend's order, each with that entry's
    vector. *)
Theorem embedContent_keeps_order (client : OpenAISdk.OpenAI)
    (erequest : EmbedContentParameters) (res : OpenAISdk.CreateEmbeddingResponse) :
  OpenAISdk.embeddings_create client
    {| OpenAISdk.e_model := em_model erequest;
       OpenAISdk.e_input := em_contents erequest |}
  = Returned res ->
  exists resp,
    OpenaiProvider.embedContent client erequest = Returned resp
    /\ OpenaiProvider2.embedContent client erequest = Returned resp
    /\ length (embeddings resp) = length (OpenAISdk.data res)
    /\ forall i e,
         OpenAISdk.data res !! i = Some e ->
         embeddings resp !! i = Some {| values := OpenAISdk.embedding e |}.
Proof.
  intros H. eexists. split; [|split; [|split]].
  - unfold OpenaiProvider.embedContent. rewrite H. reflexivity.
  - unfold OpenaiProvider2.embedContent. rewrite H. reflexivity.
  - cbn [embeddings]. apply length_fmap.
  - intros i e Hi. cbn [embeddings]. rewrite list_lookup_fmap, Hi. reflexivity.
Qed.

Lemma embedContent_keeps_order_witness :
  let client :=
    {| OpenAISdk.chat_completions_create := fun _ => Thrown "offline";
       OpenAISdk.chat_completions_create_stream := fun _ => Thrown "offline";
       OpenAISdk.embeddings_create := fun _ =>
         Returned {| OpenAISdk.data :=
                       [{| OpenAISdk.embedding := [0.5%float] |};
                        {| OpenAISdk.embedding := [0.25%float; 1%float] |}] |} |} in
  exists resp,
    OpenaiProvider.embedContent client (embed_request Fixtures.requests) = Returned resp
    /\ embeddings resp !! 1 = Some {| values := [0.25%float; 1%float] |}.
Proof.
  intros client.
  destruct (embedContent_keeps_order client (embed_request Fixtures.requests) _ eq_refl)
    as [resp [Hr [_ [_ Hi]]]].
  exists resp. split; [exact Hr|]. exact (Hi 1 _ eq_refl).
Defined.

(** ** Translation of content lists, further *)

(** A non-empty bare string is translated as the one-item list of it, and a
    single content object as the one-item list of it, by the first OpenAI
    adapter and by the Claude adapter; absent contents and the empty bare
    string give no message at all, while the empty string as a list item
    still gives one message. *)
Theorem bare_forms_are_single_item_lists (s : string) (c : Content) :
  s <> "" ->
  OpenaiProvider.toOpenAIMessages (Some (CString s))
  = OpenaiProvider.toOpenAIMessages (Some (CList [IString s]))
  /\ ClaudeProvider.toAnthropicMessages (Some (CString s))
     = ClaudeProvider.toAnthropicMessages (Some (CList [IString s]))
  /\ OpenaiProvider.toOpenAIMessages (Some (COne c))
     = OpenaiProvider.toOpenAIMessages (Some (CList [IObject c]))
  /\ ClaudeProvider.toAnthropicMessages (Some (COne c))
     = ClaudeProvider.toAnthropicMessages (Some (CList [IObject c]))
  /\ OpenaiProvider.toOpenAIMessages (Some (CString "")) = []
  /\ ClaudeProvider.toAnthropicMessages (Some (CString "")) = []
  /\ OpenaiProvider.toOpenAIMessages None = []
  /\ ClaudeProvider.toAnthropicMessages None = []
  /\ length (OpenaiProvider.toOpenAIMessages (Some (CList [IString ""]))) = 1
  /\ length (ClaudeProvider.toAnthropicMessages (Some (CList [IString ""]))) = 1.
Proof.
  intros Hs. destruct s as [|a s]; [congruence|]. repeat split.
Qed.

Lemma bare_forms_are_single_item_lists_witness :
  OpenaiProvider.toOpenAIMessages (Some (CString "hello"))
  = OpenaiProvider.toOpenAIMessages (Some (CList [IString "hello"])).
Proof.
  refine (proj1 (bare_forms_are_single_item_lists "hello"
                   {| role := Js.Absent; parts := None |} _)).
  discriminate.
Defined.

Lemma foldr_append_filter (f : Part -> string) (keep : Part -> bool) (ps : list Part) :
  (forall p, keep p = false -> f p = "") ->
  foldr String.append "" (f <$> ps)
  = foldr String.append "" (f <$> List.filter keep ps).
Proof.
  intros H. induction ps as [|p ps IH]; [reflexivity|].
  cbn [fmap list_fmap foldr List.filter]. destruct (keep p) eqn:E.
  - cbn [fmap list_fmap foldr]. f_equal. exact IH.
  - rewrite (H p E). exact IH.
Qed.

Lemma join_filter (f : Part -> string) (keep : Part -> bool) (ps : list Part) :
  (forall p, keep p = false -> f p = "") ->
  Js.join "" (f <$> ps) = Js.join "" (f <$> List.filter keep ps).
Proof. intros H. rewrite !join_empty_sep. apply foldr_append_filter. exact H. Qed.

(** Parts that carry no text (non-text parts, parts with an empty text, empty
    strings; for the second OpenAI adapter also every bare string) can be
    removed from a turn without changing the message it is translated to. *)
Theorem parts_without_text_are_ignored (r : Js.field string) (ps : list Part) :
  OpenaiProvider.item_to_message (IObject {| role := r; parts := Some ps |})
  = OpenaiProvider.item_to_message
      (IObject {| role := r; parts := Some (List.filter has_text ps) |})
  /\ ClaudeProvider.item_to_message (IObject {| role := r; parts := Some ps |})
     = ClaudeProvider.item_to_message
         (IObject {| role := r; parts := Some (List.filter has_text ps) |})
  /\ OpenaiProvider2.item_to_message (IObject {| role := r; parts := Some ps |})
     = OpenaiProvider2.item_to_message
         (IObject {| role := r; parts := Some (List.filter has_object_text ps) |}).
Proof.
  split; [|split].
  - cbn. destruct (Js.has r); cbn; [|reflexivity].
    f_equal. apply join_filter.
    intros [[|a s]|[[|a s]|]]; cbn; (reflexivity || discriminate).
  - cbn. f_equal. apply join_filter.
    intros [[|a s]|[[|a s]|]]; cbn; (reflexivity || discriminate).
  - cbn. f_equal. apply join_filter.
    intros [s|[[|a s]|]]; cbn; (reflexivity || discriminate).
Qed.

(** Whatever an adapter's [generateContent] returns can be handed back as a
    turn of a later request: each translation maps it to one message with the
    role 'model', passed on as it is, and exactly the returned text. *)
Theorem response_resubmitted_as_turn (b : Backend) (a : Adapter)
    (request : GenerateContentParameters) (resp : GenerateContentResponse) :
  generateContent (adapter_generator b a) request = Returned resp ->
  exists text,
    one_model_candidate resp text
    /\ OpenaiProvider.toOpenAIMessages (Some (as_turns resp))
       = [{| OpenAISdk.msg_role := Some "model"; OpenAISdk.msg_content := text |}]
    /\ OpenaiProvider2.toOpenAIMessages (as_turns resp)
       = Returned [{| OpenAISdk.msg_role := Some "model";
                      OpenAISdk.msg_content := text |}]
    /\ ClaudeProvider.toAnthropicMessages (Some (as_turns resp))
       = [{| AnthropicSdk.msg_role := Some "model";
             AnthropicSdk.msg_content := text |}].
Proof.
  intros H.
  assert (Hone : exists text, candidates resp = [model_candidate text]).
  { destruct a; cbn [adapter_generator generateContent OpenaiProvider.generator
                       OpenaiProvider2.generator ClaudeProvider.generator
                       GrokProvider.generator] in H.
    - unfold OpenaiProvider.generateContent in H. cbv zeta in H.
      destruct (OpenAISdk.chat_completions_create _ _); [|discriminate H].
      injection H as <-. eexists. reflexivity.
    - unfold OpenaiProvider2.generateContent in H.
      destruct (OpenaiProvider2.toOpenAIMessages _); [|discriminate H].
      cbn in H. destruct (OpenAISdk.chat_completions_create _ _); [|discriminate H].
      injection H as <-. eexists. reflexivity.
    - unfold ClaudeProvider.generateContent in H. cbv zeta in H.
      destruct (AnthropicSdk.messages_create _ _); [|discriminate H].
      injection H as <-. eexists. reflexivity.
    - discriminate H. }
  destruct Hone as [text Hc]. exists text. split; [exact Hc|].
  unfold as_turns. rewrite Hc. repeat split.
Qed.

Lemma response_resubmitted_as_turn_witness :
  exists resp,
    generateContent
      (adapter_generator (Fixtures.backend_of Fixtures.hi_completion Fixtures.hi_message)
         Claude)
      (Fixtures.request_of (Some (CString "hello")))
    = Returned resp
    /\ OpenaiProvider.toOpenAIMessages (Some (as_turns resp))
       = [{| OpenAISdk.msg_role := Some "model"; OpenAISdk.msg_content := "Hi" |}].
Proof.
  eexists. split; [reflexivity|].
  destruct (response_resubmitted_as_turn
              (Fixtures.backend_of Fixtures.hi_completion Fixtures.hi_message) Claude
              (Fixtures.request_of (Some (CString "hello"))) _ eq_refl)
    as [text [Hone [Hm _]]].
  injection Hone as <-. exact Hm.
Defined.

Lemma typed_parts_agree (ps : list Part) :
  forallb is_object_part ps = true ->
  OpenaiProvider2.part_to_text <$> ps = OpenaiProvider.part_to_text <$> ps.
Proof.
  induction ps as [|p ps IH]; [reflexivity|].
  cbn [forallb]. intros H. apply andb_prop in H as [Hp Hps].
  cbn [fmap list_fmap]. f_equal; [|exact (IH Hps)].
  destruct p; [discriminate Hp | reflexivity].
Qed.

Lemma typed_turn_agree (item : ContentItem) :
  typed_turn item = true ->
  OpenaiProvider2.item_to_message item = OpenaiProvider.item_to_message item
  /\ AnthropicSdk.msg_role (ClaudeProvider.item_to_message item)
     = OpenAISdk.msg_role (OpenaiProvider.item_to_message item)
  /\ AnthropicSdk.msg_content (ClaudeProvider.item_to_message item)
     = OpenAISdk.msg_content (OpenaiProvider.item_to_message item).
Proof.
  destruct item as [s|[r ps]]; cbn [typed_turn role parts]; [discriminate|].
  intros H. apply andb_prop in H as [Hr Hps].
  cbn [OpenaiProvider.item_to_message OpenaiProvider2.item_to_message
         ClaudeProvider.item_to_message role parts]. rewrite Hr. cbn [negb].
  split; [|split; reflexivity].
  destruct ps as [ps|]; cbn [default from_option id] in *; [|reflexivity].
  rewrite (typed_parts_agree ps Hps). reflexivity.
Qed.

(** On a list of turns that all have the [role] property and only object
    parts, the three translations agree: the two OpenAI adapters produce the
    same messages, and the Claude adapter messages with the same roles and
    contents. *)
Theorem translations_agree_on_typed_turns (l : list ContentItem) :
  forallb typed_turn l = true ->
  OpenaiProvider2.toOpenAIMessages (CList l)
  = Returned (OpenaiProvider.toOpenAIMessages (Some (CList l)))
  /\ (fun m => (AnthropicSdk.msg_role m, AnthropicSdk.msg_content m))
       <$> ClaudeProvider.toAnthropicMessages (Some (CList l))
     = (fun m => (OpenAISdk.msg_role m, OpenAISdk.msg_content m))
         <$> OpenaiProvider.toOpenAIMessages (Some (CList l)).
Proof.
  intros H.
  cbn [OpenaiProvider2.toOpenAIMessages OpenaiProvider.toOpenAIMessages
         ClaudeProvider.toAnthropicMessages].
  induction l as [|item l IH]; [split; reflexivity|].
  cbn [forallb] in H. apply andb_prop in H as [Hi Hl].
  destruct (IH Hl) as [IH1 IH2].
  destruct (typed_turn_agree item Hi) as [H2 [Hr Hc]].
  cbn [fmap list_fmap]. split.
  - f_equal. f_equal; [exact H2|]. injection IH1 as IH1. exact IH1.
  - apply (f_equal2 cons); [rewrite Hr, Hc; reflexivity | exact IH2].
Qed.

Lemma translations_agree_on_typed_turns_witness :
  OpenaiProvider2.toOpenAIMessages
    (CList [IObject {| role := Js.Present "user";
                       parts := Some [PObject (Some "a"); PObject None;
                                      PObject (Some "b")] |}])
  = Returned [{| OpenAISdk.msg_role := Some "user"; OpenAISdk.msg_content := "ab" |}].
Proof.
  exact (proj1 (translations_agree_on_typed_turns
                  [IObject {| role := Js.Present "user";
                              parts := Some [PObject (Some "a"); PObject None;
                                             PObject (Some "b")] |}] eq_refl)).
Defined.

(** ** Generation options *)

(** The OpenAI adapters forward the model, the contents, the temperature and
    topP, and nothing else of a request: two requests that agree on these,
    whatever their maxOutputTokens, get the same outcome from the generate
    and the stream operation. *)
Theorem openai_ignores_maxOutputTokens (client : OpenAISdk.OpenAI)
    (r r' : GenerateContentParameters) :
  model r = model r' ->
  contents r = contents r' ->
  config r ≫= temperature = config r' ≫= temperature ->
  config r ≫= topP = config r' ≫= topP ->
  OpenaiProvider.generateContent client r = OpenaiProvider.generateContent client r'
  /\ OpenaiProvider.generateContentStream client r
     = OpenaiProvider.generateContentStream client r'
  /\ OpenaiProvider2.generateContent client r = OpenaiProvider2.generateContent client r'
  /\ OpenaiProvider2.generateContentStream client r
     = OpenaiProvider2.generateContentStream client r'.
Proof.
  intros Hm Hc Ht Hp.
  unfold OpenaiProvider.generateContent, OpenaiProvider.generateContentStream,
    OpenaiProvider2.generateContent, OpenaiProvider2.generateContentStream.
  rewrite Hm, Hc, Ht, Hp. repeat split.
Qed.

Lemma openai_ignores_maxOutputTokens_witness :
  OpenaiProvider.generateContent
    (Fixtures.openai Fixtures.hi_completion [])
    {| model := "m"; contents := Some (CString "hello");
       config := Some {| temperature := Some 0.5%float; topP := None;
                         maxOutputTokens := Some 16%Z |} |}
  = OpenaiProvider.generateContent
      (Fixtures.openai Fixtures.hi_completion [])
      {| model := "m"; contents := Some (CString "hello");
         config := Some {| temperature := Some 0.5%float; topP := None;
                           maxOutputTokens := None |} |}.
Proof.
  exact (proj1 (openai_ignores_maxOutputTokens
                  (Fixtures.openai Fixtures.hi_completion [])
                  {| model := "m"; contents := Some (CString "hello");
                     config := Some {| temperature := Some 0.5%float; topP := None;
                                       maxOutputTokens := Some 16%Z |} |}
                  {| model := "m"; contents := Some (CString "hello");
                     config := Some {| temperature := Some 0.5%float; topP := None;
                                       maxOutputTokens := None |} |}
                  eq_refl eq_refl eq_refl eq_refl)).
Defined.

(** The Claude adapter forwards the model, the contents, the temperature and
    the maxOutputTokens, an absent maxOutputTokens counting as 1024, and
    nothing else: two requests that agree on these, whatever their topP, get
    the same outcome from [generateContent]. *)
Theorem claude_ignores_topP (client : AnthropicSdk.Anthropic)
    (r r' : GenerateContentParameters) :
  model r = model r' ->
  contents r = contents r' ->
  config r ≫= temperature = config r' ≫= temperature ->
  default 1024%Z (config r ≫= maxOutputTokens)
  = default 1024%Z (config r' ≫= maxOutputTokens) ->
  ClaudeProvider.generateContent client r = ClaudeProvider.generateContent client r'.
Proof.
  intros Hm Hc Ht Hx. unfold ClaudeProvider.generateContent.
  rewrite Hm, Hc, Ht, Hx. reflexivity.
Qed.

Lemma claude_ignores_topP_witness :
  ClaudeProvider.generateContent (Fixtures.anthropic Fixtures.hi_message)
    {| model := "m"; contents := Some (CString "hello"); config := None |}
  = ClaudeProvider.generateContent (Fixtures.anthropic Fixtures.hi_message)
      {| model := "m"; contents := Some (CString "hello");
         config := Some {| temperature := None; topP := Some 0.5%float;
                           maxOutputTokens := Some 1024%Z |} |}.
Proof.
  exact (claude_ignores_topP (Fixtures.anthropic Fixtures.hi_message)
           {| model := "m"; contents := Some (CString "hello"); config := None |}
           {| model := "m"; contents := Some (CString "hello");
              config := Some {| temperature := None; topP := Some 0.5%float;
                                maxOutputTokens := Some 1024%Z |} |}
           eq_refl eq_refl eq_refl eq_refl).
Defined.

(** ** Streams *)

Lemma string_append_assoc (x u w : string) : (x +:+ u) +:+ w = x +:+ (u +:+ w).
Proof.
  induction x as [|c x IH]; [reflexivity|].
  change ((String c x +:+ u) +:+ w) with (String c ((x +:+ u) +:+ w)).
  rewrite IH. reflexivity.
Qed.

Lemma chunk_texts_iterator (stream : list OpenAISdk.ChatCompletionChunk) :
  chunk_texts (OpenaiProvider.iterator stream)
  = (fun chunk => [OpenaiProvider.chunk_text chunk]) <$> stream.
Proof.
  induction stream as [|chunk rest IH]; [reflexivity|].
  cbn [OpenaiProvider.iterator]. unfold chunk_texts in *. cbn [fmap list_fmap].
  rewrite IH. reflexivity.
Qed.

(** What the generator has yielded after a prefix of the backend stream does
    not depend on what the backend sends later, and the texts of all the
    chunks it yields, put together in order, are the backend's delta texts put
    together: nothing is lost, repeated or reordered. *)
Theorem stream_yields_extend (s1 s2 : list OpenAISdk.ChatCompletionChunk) :
  OpenaiProvider.iterator (s1 ++ s2)
  = OpenaiProvider.iterator s1 ++ OpenaiProvider.iterator s2
  /\ List.concat (chunk_texts (OpenaiProvider.iterator s1))
     = OpenaiProvider.chunk_text <$> s1
  /\ Js.join "" (List.concat (chunk_texts (OpenaiProvider.iterator (s1 ++ s2))))
     = Js.join "" (OpenaiProvider.chunk_text <$> s1)
         +:+ Js.join "" (OpenaiProvider.chunk_text <$> s2).
Proof.
  assert (Hc : forall s, List.concat (chunk_texts (OpenaiProvider.iterator s))
                         = OpenaiProvider.chunk_text <$> s).
  { intros s. rewrite chunk_texts_iterator.
    induction s as [|c s IH]; [reflexivity|].
    cbn [fmap list_fmap List.concat]. rewrite IH. reflexivity. }
  split; [|split].
  - rewrite !iterator_fmap. apply fmap_app.
  - apply Hc.
  - rewrite Hc, fmap_app, !join_empty_sep.
    induction (OpenaiProvider.chunk_text <$> s1) as [|x xs IH]; [reflexivity|].
    cbn [foldr app]. rewrite IH. symmetry. apply string_append_assoc.
Qed.

(** ** The factory on the tags of the other provider modules *)

Section FactoryDispatch.

Variable newOpenAI : option string -> OpenAISdk.OpenAI.
Variable newAnthropic : option string -> AnthropicSdk.Anthropic.
Variable newGoogleGenAI :
  GoogleGenaiProvider.GoogleGenAIOptions -> GoogleGenaiProvider.GoogleGenAI.
Variable createCodeAssistContentGenerator :
  HttpOptions -> option AuthType -> Config -> option string -> M ContentGenerator.
Variables createDoubaoProvider createQwenProvider createKimiProvider
  createDeepseekProvider :
  ContentGeneratorConfig -> Config -> option string -> M ContentGenerator.

#[local] Abbreviation factory :=
  (createContentGenerator newOpenAI newAnthropic newGoogleGenAI
     createCodeAssistContentGenerator createDoubaoProvider createQwenProvider
     createKimiProvider createDeepseekProvider).

(** For the tags 'doubao', 'qwen', 'kimi' and 'deepseek' the factory reads
    CLI_VERSION and then runs that provider's own constructor, and no other,
    on the unchanged configuration, session configuration and session id; its
    outcome is the constructor's. *)
Theorem factory_dispatches_other_tags (config : ContentGeneratorConfig) gc sid proc :
  let run (create : ContentGeneratorConfig -> Config -> option string
                    -> M ContentGenerator) :=
    let '(t, o) := create config gc sid proc in (EnvRead "CLI_VERSION" :: t, o) in
  (cfg_provider config = Some Provider.DOUBAO ->
   factory config gc sid proc = run createDoubaoProvider)
  /\ (cfg_provider config = Some Provider.QWEN ->
      factory config gc sid proc = run createQwenProvider)
  /\ (cfg_provider config = Some Provider.KIMI ->
      factory config gc sid proc = run createKimiProvider)
  /\ (cfg_provider config = Some Provider.DEEPSEEK ->
      factory config gc sid proc = run createDeepseekProvider).
Proof.
  cbv zeta.
  destruct (factory_run newOpenAI newAnthropic newGoogleGenAI
              createCodeAssistContentGenerator createDoubaoProvider
              createQwenProvider createKimiProvider createDeepseekProvider
              config gc sid proc) as [h [_ ->]].
  cbv zeta. repeat split; intros ->; reflexivity.
Qed.

End FactoryDispatch.

Lemma factory_dispatches_other_tags_witness :
  createContentGenerator Fixtures.newOpenAI Fixtures.newAnthropic
    Fixtures.newGoogleGenAI Fixtures.createCodeAssistContentGenerator
    (fun _ _ _ => throw "doubao") (fun _ _ _ => throw "qwen")
    (fun _ _ _ => throw "kimi") (fun _ _ _ => throw "deepseek")
    (Fixtures.generator_config (Some "kimi") None None)
    Fixtures.gcConfig None (Fixtures.process [])
  = ([EnvRead "CLI_VERSION"], Thrown "kimi").
Proof.
  exact (proj1 (proj2 (proj2
           (factory_dispatches_other_tags Fixtures.newOpenAI Fixtures.newAnthropic
              Fixtures.newGoogleGenAI Fixtures.createCodeAssistContentGenerator
              (fun _ _ _ => throw "doubao") (fun _ _ _ => throw "qwen")
              (fun _ _ _ => throw "kimi") (fun _ _ _ => throw "deepseek")
              (Fixtures.generator_config (Some "kimi") None None)
              Fixtures.gcConfig None (Fixtures.process [])))) eq_refl).
Defined.
